(** * eeSAR: Sentinel-1 collection builder

    A shallow embedding of [eeSAR/s1/s1_collection.py],
    [eeSAR/misc/_quegan.py] and [eeSAR/misc/_slope_correction.py].

    The Python code computes nothing locally: every call into the [ee]
    client library returns a handle on a node of a server-side expression
    graph.  The embedding keeps that reading.  A Python value is either a
    plain local value (None, a number, a string, ...) or a graph node
    [VCall f args], and the functions of the repository become functions
    that build such nodes.  Local failures of the Python code itself (a
    missing dictionary key, a bad operand type, an unbound local variable)
    are results in an error monad.

    The embedding follows the run in which every call into [ee], and every
    call into an absent module, returns.  The client library checks some
    arguments while the graph is built and may raise there; that is not
    modelled.  A statement that a function raises nothing is therefore a
    statement about the repository's own statements, and a statement that a
    function does not return holds of the code outright, since an exception
    of the library is no return either. *)

From Stdlib Require Import ZArith QArith Bool List String Lia.
#[local] Set Warnings "-register-all".
From stdpp Require Import base gmap strings list fin_maps sorting.

Local Open Scope string_scope.
Local Open Scope Z_scope.

(** ** Python values *)

(** A float of the program is a rational multiple of a power of pi
    ([math.pi], [np.pi / 180], [180 / np.pi], [366 / 2], [2.6]); rounding
    is not modelled. *)
Record pyfloat := PyFloat { coef : Q; pi_exp : Z }.

Definition fint (z : Z) : pyfloat := PyFloat (inject_Z z) 0.
Definition fdec (q : Q) : pyfloat := PyFloat (Qred q) 0.
Definition fpi : pyfloat := PyFloat 1 1.
Definition fdiv (a b : pyfloat) : pyfloat :=
  PyFloat (Qred (coef a / coef b)) (pi_exp a - pi_exp b).
Definition fneg (a : pyfloat) : pyfloat :=
  PyFloat (Qred (- coef a)) (pi_exp a).

Inductive val : Type :=
| VNone
| VBool (b : bool)
| VInt (z : Z)
| VFloat (x : pyfloat)
| VStr (s : string)
| VDatetime (millis : Z)                 (* a datetime.datetime object *)
| VList (l : list val)
| VDict (d : list (string * val))        (* a dict literal handed to ee *)
| VVar (name : string)                   (* the argument of a mapped function *)
| VFun (param : string) (body : val)     (* a mapped function, once traced *)
| VCall (f : string) (args : list val).  (* an ee node; a method's receiver
                                            is the first argument *)

Definition strs (l : list string) : val := VList (List.map VStr l).

(** Python truth value testing, as [if x:] and [not x] perform it. *)
Definition Qnonzero (q : Q) : bool := negb (Z.eqb (Qnum q) 0).

Definition truthy (v : val) : bool :=
  match v with
  | VNone => false
  | VBool b => b
  | VInt z => negb (Z.eqb z 0)
  | VFloat x => Qnonzero (coef x)
  | VStr s => negb (String.eqb s "")
  | VDatetime _ => true
  | VList l => negb (Nat.eqb (List.length l) 0)
  | VDict d => negb (Nat.eqb (List.length d) 0)
  | VVar _ | VFun _ _ | VCall _ _ => true
  end.

(** ** Local errors *)

(** The exceptions that the statements of the repository raise themselves.
    Exceptions raised inside the client library are not among them. *)
Inductive pyerr :=
| KeyError (key : string)
| TypeError (what : string)
| UnboundLocalError (name : string).

Inductive result (A : Type) :=
| Ok (a : A)
| Raise (e : pyerr).
Arguments Ok {A} a.
Arguments Raise {A} e.

Definition rbind {A B} (r : result A) (k : A -> result B) : result B :=
  match r with
  | Ok a => k a
  | Raise e => Raise e
  end.

Notation "x <- c ;; k" := (rbind c (fun x => k))
  (at level 100, c at next level, right associativity).

Definition returns {A} (r : result A) : Prop := exists a, r = Ok a.

(** [d[key]] on a Python dict. *)
Definition getitem (d : gmap string val) (key : string) : result val :=
  match d !! key with
  | Some v => Ok v
  | None => Raise (KeyError key)
  end.

(** Unary minus: defined on numbers (bool is a subclass of int). *)
Definition py_neg (v : val) : result val :=
  match v with
  | VBool b => Ok (VInt (- (if b then 1 else 0)))
  | VInt z => Ok (VInt (- z))
  | VFloat x => Ok (VFloat (fneg x))
  | _ => Raise (TypeError "bad operand type for unary -")
  end.

(** [v > 0]: defined on numbers, a TypeError otherwise. *)
Definition py_gt0 (v : val) : result bool :=
  match v with
  | VBool b => Ok b
  | VInt z => Ok (0 <? z)
  | VFloat x => Ok (0 <? Qnum (coef x))
  | _ => Raise (TypeError "'>' not supported")
  end.

(** [v == s] for a string literal [s]. *)
Definition py_eq_str (v : val) (s : string) : bool :=
  match v with
  | VStr s' => String.eqb s' s
  | _ => false
  end.

(** ** Calls into the ee client library *)

(** [o.m(args)] is the node [m] over the receiver and the arguments. *)
Notation "o '.:' m args" := (VCall m (o :: args))
  (at level 40, m at level 0, args at level 0, left associativity,
   only parsing).

(** [ee.f(args)], a function of the library that has no receiver. *)
Definition ee (f : string) (args : list val) : val := VCall ("ee." ++ f) args.

(** [collection.map(f)]: the client library calls the Python function [f]
    once, at once, on a placeholder for the element, and stores the node
    that comes back as the body of the mapped function.  An exception that
    [f] raises is therefore raised by the call of [map] itself. *)
Definition ee_map (collection : val) (param : string)
    (f : val -> result val) : result val :=
  body <- f (VVar param) ;;
  Ok (collection .: "map" [VFun param body]).

(** ** misc/_quegan.py *)

Module _quegan.

(** Lines 16-28 of [apply]: the reference collection. *)
Definition s1 (image fro to : val) : val :=
  (ee "ImageCollection" [VStr "COPERNICUS/S1_GRD_FLOAT"])
    .: "filterMetadata" [VStr "resolution_meters"; VStr "equals"; VInt 10]
    .: "filterMetadata" [VStr "instrumentMode"; VStr "equals"; VStr "IW"]
    .: "filter" [ee "Filter.And"
         [ee "Filter.listContains"
            [VStr "transmitterReceiverPolarisation"; VStr "VV"];
          ee "Filter.listContains"
            [VStr "transmitterReceiverPolarisation"; VStr "VH"]]]
    .: "filterDate" [fro; to]
    .: "filter" [ee "Filter.eq"
         [VStr "relativeOrbitNumber_start";
          image .: "get" [VStr "relativeOrbitNumber_start"]]].

Definition mapMeanSpace (radius units meanBands ratioBands : val)
    (i : val) : result val :=
  let reducer := ee "Reducer.mean" [] in
  let kernel := ee "Kernel.square" [radius; units] in
  let mean := i .: "reduceNeighborhood" [reducer; kernel]
                .: "rename" [meanBands] in
  let ratio := i .: "divide" [mean] .: "rename" [ratioBands] in
  Ok (i .: "addBands" [mean] .: "addBands" [ratio] .: "set" []).

(** Lines 11-13 and 30-53 of [apply]: the filter itself, over the
    reference collection [s1]. *)
Definition filtering (image radius units s1 : val) : result val :=
  let bands := image .: "bandNames" [] in
  meanBands <- ee_map bands "b"
    (fun b => Ok (ee "String" [b] .: "cat" [VStr "_mean"])) ;;
  ratioBands <- ee_map bands "b"
    (fun b => Ok (ee "String" [b] .: "cat" [VStr "_ratio"])) ;;

  (* compute spatial average for all images *)
  s1_mean <- ee_map s1 "i" (mapMeanSpace radius units meanBands ratioBands) ;;
  let image_mean :=
    s1_mean .: "filter" [ee "Filter.eq"
                 [VStr "system:index"; image .: "get" [VStr "system:index"]]]
            .: "first" [] in

  (* get ratio bands *)
  let s1_ratio := s1_mean .: "select" [ratioBands] in

  (* do the filtering operation *)
  let image_filtered := ee "Image"
    [image_mean .: "select" [meanBands]
       .: "multiply" [s1_ratio .: "sum" []]
       .: "divide" [s1_ratio .: "count" []]
       .: "rename" [bands]
       .: "copyProperties" [image]
       .: "set" [VStr "system:time_start";
                 image .: "get" [VStr "system:time_start"]]] in
  Ok image_filtered.

Definition apply (image radius units time_window : val) : result val :=
  before <- py_neg time_window ;;
  let time_window : gmap string val :=
    {[ "before" := before; "after" := time_window;
       "units" := VStr "month" ]} in
  let t := image .: "date" [] in
  tw_before <- getitem time_window "before" ;;
  tw_units <- getitem time_window "units" ;;
  let fro := t .: "advance" [ee "Number" [tw_before]; tw_units] in
  tw_after <- getitem time_window "after" ;;
  tw_units <- getitem time_window "units" ;;
  let to := t .: "advance" [ee "Number" [tw_after]; tw_units] in
  (* create image collection for time-period of interest *)
  let s1 := s1 image fro to in
  filtering image radius units s1.

End _quegan.

(** ** misc/_slope_correction.py *)

Module _slope_correction.

Definition pi_over_180 : val := VFloat (fdiv fpi (fint 180)).   (* np.pi / 180 *)
Definition _180_over_pi : val := VFloat (fdiv (fint 180) fpi).  (* 180 / np.pi *)

Definition _volumetric_model_SCF (theta_iRad alpha_rRad : val) : val :=
  (* create a 90 degree image in radians *)
  let ninetyRad := ee "Image.constant" [VInt 90] .: "multiply" [pi_over_180] in
  (* model *)
  let nominator :=
    ninetyRad .: "subtract" [theta_iRad] .: "add" [alpha_rRad] .: "tan" [] in
  let denominator := ninetyRad .: "subtract" [theta_iRad] .: "tan" [] in
  nominator .: "divide" [denominator].

Definition _surface_model_SCF (theta_iRad alpha_rRad alpha_azRad : val) : val :=
  (* create a 90 degree image in radians *)
  let ninetyRad := ee "Image.constant" [VInt 90] .: "multiply" [pi_over_180] in
  (* model *)
  let nominator := ninetyRad .: "subtract" [theta_iRad] .: "cos" [] in
  let denominator :=
    alpha_azRad .: "cos" []
      .: "multiply"
           [ninetyRad .: "subtract" [theta_iRad] .: "add" [alpha_rRad]
              .: "cos" []] in
  nominator .: "divide" [denominator].

Definition _erode (image distance : val) : val :=
  let d := image .: "Not" [] .: "unmask" [VInt 1]
             .: "fastDistanceTransform" [VInt 30] .: "sqrt" []
             .: "multiply" [ee "Image.pixelArea" [] .: "sqrt" []] in
  image .: "updateMask" [d .: "gt" [distance]].

Definition _masking (alpha_rRad theta_iRad buffer : val) : result val :=
  (* layover, where slope > radar viewing angle *)
  let layover := alpha_rRad .: "lt" [theta_iRad] .: "rename" [VStr "layover"] in
  (* shadow *)
  let ninetyRad := ee "Image.constant" [VInt 90] .: "multiply" [pi_over_180] in
  let shadow :=
    alpha_rRad .: "gt"
        [ee "Image.constant" [VInt (-1)]
           .: "multiply" [ninetyRad .: "subtract" [theta_iRad]]]
      .: "rename" [VStr "shadow"] in
  (* add buffer to layover and shadow *)
  positive <- py_gt0 buffer ;;
  let '(layover, shadow) :=
    if positive : bool
    then (_erode layover buffer, _erode shadow buffer)
    else (layover, shadow) in
  (* combine layover and shadow *)
  let no_data_mask :=
    layover .: "And" [shadow] .: "rename" [VStr "no_data_mask"] in
  Ok (layover .: "addBands" [shadow] .: "addBands" [no_data_mask]).

(** The local variable [scf] of [correct] is bound by neither [if] when
    [model] is some other value; reading it then raises. *)
Definition read_local (name : string) (v : option val) : result val :=
  match v with
  | Some x => Ok x
  | None => Raise (UnboundLocalError name)
  end.

Definition correct (image model elevation buffer : val) : result val :=
  (* get the image geometry and projection *)
  let geom := image .: "geometry" [] in
  let proj := image .: "select" [VInt 1] .: "projection" [] in
  (* calculate the look direction *)
  let heading :=
    ee "Terrain.aspect" [image .: "select" [VStr "angle"]]
      .: "reduceRegion" [ee "Reducer.mean" []; geom; VInt 1000]
      .: "get" [VStr "aspect"] in
  (* 2.1.1 Radar geometry *)
  let theta_iRad := image .: "select" [VStr "angle"] .: "multiply" [pi_over_180] in
  let phi_iRad := ee "Image.constant" [heading] .: "multiply" [pi_over_180] in
  (* 2.1.2 Terrain geometry *)
  let elevation := ee "Image" [elevation] .: "resample" [] in
  let alpha_sRad :=
    ee "Terrain.slope" [elevation] .: "select" [VStr "slope"]
      .: "multiply" [pi_over_180] .: "setDefaultProjection" [proj]
      .: "clip" [geom] in
  let phi_sRad :=
    ee "Terrain.aspect" [elevation] .: "select" [VStr "aspect"]
      .: "multiply" [pi_over_180] .: "setDefaultProjection" [proj]
      .: "clip" [geom] in
  (* 2.1.3 Model geometry: reduce to 3 angle *)
  let phi_rRad := phi_iRad .: "subtract" [phi_sRad] in
  (* slope steepness in range (eq. 2) *)
  let alpha_rRad :=
    alpha_sRad .: "tan" [] .: "multiply" [phi_rRad .: "cos" []] .: "atan" [] in
  (* slope steepness in azimuth (eq 3) *)
  let alpha_azRad :=
    alpha_sRad .: "tan" [] .: "multiply" [phi_rRad .: "sin" []] .: "atan" [] in
  (* local incidence angle (eq. 4) *)
  let theta_liaRad :=
    alpha_azRad .: "cos" []
      .: "multiply" [theta_iRad .: "subtract" [alpha_rRad] .: "cos" []]
      .: "acos" [] in
  let theta_liaDeg :=
    theta_liaRad .: "multiply" [_180_over_pi] .: "rename" [VStr "LIA"] in
  (* 2.2 Gamma_nought *)
  let gamma0 :=
    image .: "select" [strs ["VV"; "VH"]] .: "divide" [theta_iRad .: "cos" []]
      .: "rename" [strs ["VV"; "VH"]] in
  let scf : option val := None in
  let scf :=
    if py_eq_str model "volume"
    then Some (_volumetric_model_SCF theta_iRad alpha_rRad) else scf in
  let scf :=
    if py_eq_str model "surface"
    then Some (_surface_model_SCF theta_iRad alpha_rRad alpha_azRad)
    else scf in
  (* apply model for Gamm0_f *)
  scf <- read_local "scf" scf ;;
  let gamma0_flat := gamma0 .: "divide" [scf] .: "rename" [strs ["VV"; "VH"]] in
  masks <- _masking alpha_rRad theta_iRad buffer ;;
  Ok (ee "Image"
        [gamma0_flat
           .: "addBands" [image .: "select" [VStr "angle"]]
           .: "addBands" [theta_liaDeg]
           .: "addBands" [masks]
           .: "copyProperties" [image]
           .: "set" [VStr "system:time_start";
                     image .: "get" [VStr "system:time_start"]]]).

End _slope_correction.

(** ** s1/s1_collection.py *)

Module s1_collection.

Local Open Scope list_scope.

(** The arguments of [create]. *)
Record config := Config {
  region : val;
  orbits : list val;
  start_date : val;
  end_date : val;
  target_date : val;
  add_ratio : bool;
  add_ND_ratio : bool;
  speckle_filter : string;
  speckle_filter_dict : gmap string val;
  radiometric_correction : string;
  slope_correction_dict : gmap string val;
  outlier_removal : string;
  db : bool
}.

(** The default values of the signature, over a region. *)
Definition defaults (region : val) : config := {|
  region := region;
  orbits := [VStr "ASCENDING"; VStr "DESCENDING"];
  start_date := VNone;
  end_date := VNone;
  target_date := VNone;
  add_ratio := true;
  add_ND_ratio := true;
  speckle_filter := "NONE";
  speckle_filter_dict :=
    {[ "radius" := VInt 30; "units" := VStr "meters";
       "time_window" := VInt 12 ]};
  radiometric_correction := "ELLIPSOID";
  slope_correction_dict :=
    {[ "model" := VStr "volume"; "dem" := VStr "USGS/SRTMGL1_003";
       "buffer" := VInt 12 ]};
  outlier_removal := "NONE";
  db := true
|}.

(** The functions that [pre_process] may append to [steps]. *)
Inductive step :=
| BoxcarFilter | RefinedLee | Quegan
| ToGamma0 | TerrainFlattening | MaskOverlay
| AddDateBands | AddRatioBand | AddNDRatioBand
| SnicFilter | ToDb | MaskBorders.

#[export] Instance step_eq_dec : EqDecision step.
Proof. solve_decision. Defined.

Section Create.

(** Modules of the package that are imported by [s1_collection] and are
    not part of the sources at hand: [misc/dates.py] and
    [misc/_refined_lee.py].  Their functions are parameters. *)
Variable subtract_days : val -> val -> val.
Variable add_days : val -> val -> val.
Variable refined_lee_apply : val -> result val.

Variable cfg : config.

Definition days : val := VFloat (fdiv (fint 366) (fint 2)).   (* 366 / 2 *)

(** [start_date] and [end_date] after the two defaulting statements. *)
Definition effective_start_date : val :=
  if truthy (target_date cfg) && negb (truthy (start_date cfg))
  then subtract_days (target_date cfg) days
  else start_date cfg.

Definition effective_end_date : val :=
  if truthy (target_date cfg) && negb (truthy (end_date cfg))
  then add_days (target_date cfg) days
  else end_date cfg.

Definition set_resample (image : val) : result val :=
  Ok (image .: "resample" []).

Definition to_gamma0 (image : val) : result val :=
  let gamma0 := image .: "expression"
    [VStr "i/(cos(angle * pi / 180))";
     VDict [("i", image .: "select" [strs ["VV"; "VH"]]);
            ("angle", image .: "select" [VStr "angle"]);
            ("pi", VFloat fpi)]] in
  Ok (image .: "addBands" [gamma0; VNone; VBool true]).

Definition boxcar_filter (image : val) : result val :=
  let filtered :=
    image .: "select" [strs ["VV"; "VH"]]
      .: "reduceNeighborhood"
           [ee "Reducer.mean" []; ee "Kernel.square" [VInt 30; VStr "meters"]]
      .: "rename" [strs ["VV"; "VH"]] in
  Ok (image .: "addBands" [filtered; VNone; VBool true]).

Definition quegan (image : val) : result val :=
  radius <- getitem (speckle_filter_dict cfg) "radius" ;;
  units <- getitem (speckle_filter_dict cfg) "units" ;;
  time_window <- getitem (speckle_filter_dict cfg) "time_window" ;;
  _quegan.apply image radius units time_window.

Definition terrain_flattening (image : val) : result val :=
  model <- getitem (slope_correction_dict cfg) "model" ;;
  dem <- getitem (slope_correction_dict cfg) "dem" ;;
  buffer <- getitem (slope_correction_dict cfg) "buffer" ;;
  _slope_correction.correct image model dem buffer.

Definition mask_overlay (image : val) : result val :=
  Ok (image .: "updateMask"
        [image .: "select" [VStr "layover"]
           .: "And" [image .: "select" [VStr "shadow"]]]).

Definition snic_filter (image : val) : result val :=
  let bands := strs ["VV"; "VH"; "VVVH_ratio"; "VVVH_ND_ratio"] in
  let snic :=
    ee "Algorithms.Image.Segmentation.SNIC"
       [VDict [("image", image .: "select" [bands]);
               ("size", VInt 8);
               ("compactness", VInt 5);
               ("connectivity", VInt 8);
               ("neighborhoodSize", VInt 16)]]
      .: "select" [VStr ".*_mean"] .: "rename" [bands] in
  Ok (image .: "addBands" [snic; VNone; VBool true]).

Definition add_date_bands (image : val) : result val :=
  let date := image .: "date" [] in
  let day_of_year := date .: "getRelative" [VStr "day"; VStr "year"] in
  let days_from_target :=
    date .: "difference" [ee "Date" [target_date cfg]; VStr "day"]
         .: "abs" [] in
  let millisPerDay := VInt (1000 * 60 * 60 * 24) in
  let unix_time_days := date .: "millis" [] .: "divide" [millisPerDay] in
  Ok (image
        .: "addBands" [ee "Image" [day_of_year] .: "uint16" []
                         .: "rename" [VStr "dayOfYear"]]
        .: "addBands" [ee "Image" [days_from_target] .: "uint16" []
                         .: "rename" [VStr "daysFromTarget"]]
        .: "addBands" [ee "Image" [days_from_target .: "multiply" [VInt (-1)]]
                         .: "int16" [] .: "rename" [VStr "quality"]]
        .: "addBands" [ee "Image" [unix_time_days] .: "uint16" []
                         .: "rename" [VStr "unixTimeDays"]]).

Definition add_ratio_band (image : val) : result val :=
  Ok (image .: "addBands"
        [image .: "select" [VStr "VV"]
           .: "subtract" [image .: "select" [VStr "VH"]]
           .: "rename" [VStr "VVVH_ratio"]]).

Definition add_ND_ratio_band (image : val) : result val :=
  Ok (image .: "addBands"
        [image .: "normalizedDifference" [strs ["VV"; "VH"]]
           .: "rename" [VStr "VVVH_ND_ratio"]]).

Definition mask_borders (image : val) : result val :=
  let total_slices := ee "Number" [image .: "get" [VStr "totalSlices"]] in
  let slice_number := ee "Number" [image .: "get" [VStr "sliceNumber"]] in
  let middle_slice := ee "Image"
    [slice_number .: "gt" [VInt 1]
       .: "And" [slice_number .: "lt" [total_slices]]] in
  let not_border :=
    image .: "select" [VStr "VV"] .: "mask" []
      .: "reduceNeighborhood"
           [ee "Reducer.allNonZero" [];
            ee "Kernel.circle" [VInt 500; VStr "meters"]] in
  let angle := image .: "select" [VStr "angle"] in
  Ok (image .: "updateMask"
        [angle .: "gt" [VInt 31] .: "And" [angle .: "lt" [VInt 45]]
           .: "And" [middle_slice .: "Or" [not_border]]]).

Definition toDb (image : val) : result val :=
  let db := ee "Image" [VInt 10]
              .: "multiply" [image .: "select" [strs ["VV"; "VH"]]
                               .: "log10" []]
              .: "rename" [strs ["VV"; "VH"]] in
  Ok (image .: "addBands" [db; VNone; VBool true]).

(** The function that a member of [steps] stands for. *)
Definition run (process : step) : val -> result val :=
  match process with
  | BoxcarFilter => boxcar_filter
  | RefinedLee => refined_lee_apply
  | Quegan => quegan
  | ToGamma0 => to_gamma0
  | TerrainFlattening => terrain_flattening
  | MaskOverlay => mask_overlay
  | AddDateBands => add_date_bands
  | AddRatioBand => add_ratio_band
  | AddNDRatioBand => add_ND_ratio_band
  | SnicFilter => snic_filter
  | ToDb => toDb
  | MaskBorders => mask_borders
  end.

(** The list [steps] that [pre_process] builds. *)
Definition steps : list step :=
  let steps := [] in
  let steps :=
    if String.eqb (speckle_filter cfg) "BOXCAR" then steps ++ [BoxcarFilter]
    else if String.eqb (speckle_filter cfg) "REFINED_LEE"
    then steps ++ [RefinedLee]
    else if String.eqb (speckle_filter cfg) "QUEGAN" then steps ++ [Quegan]
    else steps in
  let steps :=
    if String.eqb (radiometric_correction cfg) "ELLIPSOID"
    then steps ++ [ToGamma0]
    else if String.eqb (radiometric_correction cfg) "TERRAIN"
    then (steps ++ [TerrainFlattening]) ++ [MaskOverlay]
    else steps in
  let steps :=
    if truthy (target_date cfg) then steps ++ [AddDateBands] else steps in
  let steps := if add_ratio cfg then steps ++ [AddRatioBand] else steps in
  let steps := if add_ND_ratio cfg then steps ++ [AddNDRatioBand] else steps in
  let steps :=
    if String.eqb (speckle_filter cfg) "SNC" then steps ++ [SnicFilter]
    else steps in
  let steps := if db cfg then steps ++ [ToDb] else steps in
  steps ++ [MaskBorders].

(** [reduce(lambda acc, process: process(acc), steps, image)]. *)
Definition reduce (steps : list step) (image : val) : result val :=
  fold_left (fun acc process => a <- acc ;; run process a) steps (Ok image).

Definition pre_process (image : val) : result val :=
  reduce steps image.

Definition mask_outliers (collection std_devs : val) : result val :=
  let bands := strs ["VV"; "VH"] in
  let reduced :=
    collection .: "select" [bands]
      .: "reduce" [ee "Reducer.median" []
                     .: "combine" [ee "Reducer.stdDev" []; VStr ""; VBool true]] in
  let median := reduced .: "select" [VStr ".*_median"] in
  let std_dev := reduced .: "select" [VStr ".*_stdDev"] in
  let threshold := std_dev .: "multiply" [std_devs] in
  maskedCollection <- ee_map collection "image"
    (fun image =>
       Ok (image .: "updateMask"
             [image .: "select" [bands] .: "subtract" [median] .: "abs" []
                .: "lte" [threshold]
                .: "reduce" [ee "Reducer.min" []]])) ;;
  Ok maskedCollection.

(** The collection before the outlier removal. *)
Definition collection : result val :=
  let start_date := effective_start_date in
  let end_date := effective_end_date in
  let filtered :=
    ee "ImageCollection" [VStr "COPERNICUS/S1_GRD_FLOAT"]
      .: "filterBounds" [region cfg]
      .: "filterDate" [start_date; end_date]
      .: "filterMetadata" [VStr "resolution_meters"; VStr "equals"; VInt 10]
      .: "filter" [ee "Filter.eq" [VStr "instrumentMode"; VStr "IW"]]
      .: "filter" [ee "Filter.And"
           [ee "Filter.listContains"
              [VStr "transmitterReceiverPolarisation"; VStr "VV"];
            ee "Filter.listContains"
              [VStr "transmitterReceiverPolarisation"; VStr "VH"]]]
      .: "filter" [ee "Filter.Or"
           [VList (List.map
              (fun orbit => ee "Filter.eq" [VStr "orbitProperties_pass"; orbit])
              (orbits cfg))]] in
  resampled <- ee_map filtered "image" set_resample ;;
  ee_map resampled "image" pre_process.

Definition create : result val :=
  collection <- collection ;;
  if String.eqb (outlier_removal cfg) "MODERATE"
  then mask_outliers collection (VInt 3)
  else if String.eqb (outlier_removal cfg) "AGGRESSIVE"
  then mask_outliers collection (VFloat (fdec 2.6))
  else Ok collection.

End Create.

End s1_collection.

(** ** eeSAR/setup.py *)

Module setup.

Local Open Scope N_scope.

(** A str is the list of its code points. *)

(** [c.isspace()] for one character. *)
Definition isspace (c : N) : bool :=
  ((9 <=? c) && (c <=? 13)) || ((28 <=? c) && (c <=? 32))
  || (c =? 133) || (c =? 160) || (c =? 5760)
  || ((8192 <=? c) && (c <=? 8202))
  || (c =? 8232) || (c =? 8233) || (c =? 8239) || (c =? 8287)
  || (c =? 12288).

(** [s.partition(sep)] for a separator of one character: the part before
    the first [sep], the separator, and the part after it; the whole of
    [s] and two empty strings when [sep] does not occur. *)
Fixpoint partition (sep : N) (s : list N) : list N * list N * list N :=
  match s with
  | [] => ([], [], [])
  | c :: s' =>
      if c =? sep then ([], [sep], s')
      else let '(head, found, tail) := partition sep s' in
           (c :: head, found, tail)
  end.

Fixpoint lstrip (s : list N) : list N :=
  match s with
  | [] => []
  | c :: s' => if isspace c then lstrip s' else s
  end.

Definition rstrip (s : list N) : list N := reverse (lstrip (reverse s)).

(** [s.strip()]. *)
Definition strip (s : list N) : list N := rstrip (lstrip s).

(** [a <= b] on str: code point by code point, a prefix first. *)
Fixpoint str_leb (a b : list N) : bool :=
  match a, b with
  | [], _ => true
  | _ :: _, [] => false
  | x :: a', y :: b' =>
      if x <? y then true else if y <? x then false else str_leb a' b'
  end.

Definition str_le (a b : list N) : Prop := str_leb a b = true.

#[export] Instance str_le_dec : RelDecision str_le.
Proof. intros a b. unfold str_le. apply _. Defined.

(** [set(s)] for a str [s]: the set of its characters, each a str of
    length one. *)
Definition set_of_str (s : list N) : gset (list N) :=
  list_to_set ((fun c => [c]) <$> s).

(** [sorted(s)] for a set [s] of str. *)
Definition sorted (s : gset (list N)) : list (list N) :=
  merge_sort str_le (elements s).

Definition hash : N := 35.   (* '#' *)

(** [parse_requirements(file)], over the lines that iterating the opened
    file gives; [None] stands for the exception that [open] raises. *)
Definition parse_requirements
    (readlines : string -> option (list (list N))) (file : string)
    : option (list (list N)) :=
  lines ← readlines file;
  Some (sorted
          (list_to_set
             ((fun line => strip (partition hash line).1.1) <$> lines)
           ∖ set_of_str [])).

End setup.

(** * Vocabulary of the properties *)

Import s1_collection.
Local Open Scope list_scope.

(** ** Steps *)

(** The order in which [pre_process] can append its steps. *)
Definition pipeline_order : list step :=
  [BoxcarFilter; RefinedLee; Quegan;
   ToGamma0; TerrainFlattening; MaskOverlay;
   AddDateBands; AddRatioBand; AddNDRatioBand;
   SnicFilter; ToDb; MaskBorders].

Definition is_speckle_filter (s : step) : bool :=
  match s with
  | BoxcarFilter | RefinedLee | Quegan | SnicFilter => true
  | _ => false
  end.

Definition is_radiometric (s : step) : bool :=
  match s with
  | ToGamma0 | TerrainFlattening | MaskOverlay => true
  | _ => false
  end.

(** The condition under which [pre_process] appends a step. *)
Definition selected (cfg : config) (s : step) : bool :=
  match s with
  | BoxcarFilter => String.eqb (speckle_filter cfg) "BOXCAR"
  | RefinedLee => String.eqb (speckle_filter cfg) "REFINED_LEE"
  | Quegan => String.eqb (speckle_filter cfg) "QUEGAN"
  | ToGamma0 => String.eqb (radiometric_correction cfg) "ELLIPSOID"
  | TerrainFlattening | MaskOverlay =>
      String.eqb (radiometric_correction cfg) "TERRAIN"
  | AddDateBands => truthy (target_date cfg)
  | AddRatioBand => add_ratio cfg
  | AddNDRatioBand => add_ND_ratio cfg
  | SnicFilter => String.eqb (speckle_filter cfg) "SNC"
  | ToDb => db cfg
  | MaskBorders => true
  end.

Definition radiometric_steps (cfg : config) : list step :=
  List.filter is_radiometric (steps cfg).

(** ** Masks *)

(** The slice/border condition: the image is a middle slice of its
    acquisition, or the pixel is farther than 500 m from the edge of the
    VV data. *)
Definition slice_or_border (image : val) : val :=
  let slice_number := ee "Number" [image .: "get" [VStr "sliceNumber"]] in
  let total_slices := ee "Number" [image .: "get" [VStr "totalSlices"]] in
  ee "Image" [slice_number .: "gt" [VInt 1]
                .: "And" [slice_number .: "lt" [total_slices]]]
    .: "Or" [image .: "select" [VStr "VV"] .: "mask" []
               .: "reduceNeighborhood"
                    [ee "Reducer.allNonZero" [];
                     ee "Kernel.circle" [VInt 500; VStr "meters"]]].

(** An image masked to 31 < angle, angle < 45 and the slice/border
    condition. *)
Definition border_masked (image : val) : val :=
  let angle := image .: "select" [VStr "angle"] in
  image .: "updateMask"
    [angle .: "gt" [VInt 31] .: "And" [angle .: "lt" [VInt 45]]
       .: "And" [slice_or_border image]].

(** An image masked to the pixels where, in VV and in VH, the distance to
    [median] is at most [std_devs] times [std_dev]. *)
Definition outlier_masked (median std_dev std_devs image : val) : val :=
  image .: "updateMask"
    [image .: "select" [strs ["VV"; "VH"]]
       .: "subtract" [median] .: "abs" []
       .: "lte" [std_dev .: "multiply" [std_devs]]
       .: "reduce" [ee "Reducer.min" []]].

(** Median and standard deviation of VV and VH over a collection. *)
Definition collection_stats (collection : val) : val :=
  collection .: "select" [strs ["VV"; "VH"]]
    .: "reduce" [ee "Reducer.median" []
                   .: "combine" [ee "Reducer.stdDev" []; VStr ""; VBool true]].

(** The four bands of [add_date_bands], over the distance [d] in days
    between the image and the target. *)
Definition date_bands (image d : val) : val :=
  let date := image .: "date" [] in
  image
    .: "addBands" [ee "Image" [date .: "getRelative" [VStr "day"; VStr "year"]]
                     .: "uint16" [] .: "rename" [VStr "dayOfYear"]]
    .: "addBands" [ee "Image" [d] .: "uint16" []
                     .: "rename" [VStr "daysFromTarget"]]
    .: "addBands" [ee "Image" [d .: "multiply" [VInt (-1)]] .: "int16" []
                     .: "rename" [VStr "quality"]]
    .: "addBands" [ee "Image" [date .: "millis" []
                                 .: "divide" [VInt 86400000]]
                     .: "uint16" [] .: "rename" [VStr "unixTimeDays"]].

(** ** Properties of the source image *)

(** [x] with the properties of [image] copied onto it and then
    system:time_start set to that of [image]. *)
Definition carried_over (image x : val) : val :=
  ee "Image"
    [x .: "copyProperties" [image]
       .: "set" [VStr "system:time_start";
                 image .: "get" [VStr "system:time_start"]]].

(** ** Layover and shadow *)

Definition layover (alpha_rRad theta_iRad : val) : val :=
  alpha_rRad .: "lt" [theta_iRad] .: "rename" [VStr "layover"].

Definition shadow (alpha_rRad theta_iRad : val) : val :=
  alpha_rRad .: "gt"
      [ee "Image.constant" [VInt (-1)]
         .: "multiply"
              [ee "Image.constant" [VInt 90]
                 .: "multiply" [_slope_correction.pi_over_180]
                 .: "subtract" [theta_iRad]]]
    .: "rename" [VStr "shadow"].

(** The three bands that [_masking] returns, over the two masks. *)
Definition mask_bands (layover shadow : val) : val :=
  layover .: "addBands" [shadow]
    .: "addBands" [layover .: "And" [shadow] .: "rename" [VStr "no_data_mask"]].

(** ** The collection that [pre_process] is mapped over *)

(** The catalogue filtered to the region, the date range, 10 m, the IW
    mode, VV and VH, and the orbits, and then resampled. *)
Definition source_collection (cfg : config) (start_date end_date : val) : val :=
  ee "ImageCollection" [VStr "COPERNICUS/S1_GRD_FLOAT"]
    .: "filterBounds" [region cfg]
    .: "filterDate" [start_date; end_date]
    .: "filterMetadata" [VStr "resolution_meters"; VStr "equals"; VInt 10]
    .: "filter" [ee "Filter.eq" [VStr "instrumentMode"; VStr "IW"]]
    .: "filter" [ee "Filter.And"
         [ee "Filter.listContains"
            [VStr "transmitterReceiverPolarisation"; VStr "VV"];
          ee "Filter.listContains"
            [VStr "transmitterReceiverPolarisation"; VStr "VH"]]]
    .: "filter" [ee "Filter.Or"
         [VList (List.map
            (fun orbit => ee "Filter.eq" [VStr "orbitProperties_pass"; orbit])
            (orbits cfg))]]
    .: "map" [VFun "image" (VVar "image" .: "resample" [])].

(** ** Configurations *)

Definition with_speckle_filter (s : string) (c : config) : config :=
  Config (region c) (orbits c) (start_date c) (end_date c) (target_date c)
    (add_ratio c) (add_ND_ratio c) s (speckle_filter_dict c)
    (radiometric_correction c) (slope_correction_dict c)
    (outlier_removal c) (db c).

Definition with_radiometric_correction (s : string) (c : config) : config :=
  Config (region c) (orbits c) (start_date c) (end_date c) (target_date c)
    (add_ratio c) (add_ND_ratio c) (speckle_filter c) (speckle_filter_dict c)
    s (slope_correction_dict c) (outlier_removal c) (db c).

Definition with_outlier_removal (s : string) (c : config) : config :=
  Config (region c) (orbits c) (start_date c) (end_date c) (target_date c)
    (add_ratio c) (add_ND_ratio c) (speckle_filter c) (speckle_filter_dict c)
    (radiometric_correction c) (slope_correction_dict c) s (db c).

Definition with_dates (start_ end_ target : val) (c : config) : config :=
  Config (region c) (orbits c) start_ end_ target
    (add_ratio c) (add_ND_ratio c) (speckle_filter c) (speckle_filter_dict c)
    (radiometric_correction c) (slope_correction_dict c)
    (outlier_removal c) (db c).

Definition with_slope_correction_dict (d : gmap string val) (c : config)
    : config :=
  Config (region c) (orbits c) (start_date c) (end_date c) (target_date c)
    (add_ratio c) (add_ND_ratio c) (speckle_filter c) (speckle_filter_dict c)
    (radiometric_correction c) d (outlier_removal c) (db c).

(** A region handle for the examples. *)
Definition some_region : val := ee "Geometry.Point" [VInt 8; VInt 47].

(** [create(region, speckle_filter='SNIC')]. *)
Definition snic_request (region : val) : config :=
  with_speckle_filter "SNIC" (defaults region).

(** [create(region, start_date=0, end_date=0, target_date='2020-06-15')]:
    the range is given as millisecond timestamps. *)
Definition epoch_range_request : config :=
  with_dates (VInt 0) (VInt 0) (VStr "2020-06-15") (defaults some_region).

(** [create(region, target_date=0)]: the target is the millisecond
    timestamp 0. *)
Definition epoch_target_request : config :=
  with_dates VNone VNone (VInt 0) (defaults some_region).

(** [create(region, radiometric_correction='TERRAIN',
    slope_correction_dict={'model': 'direct', 'dem': 'USGS/SRTMGL1_003',
    'buffer': 12})]. *)
Definition direct_model_request : config :=
  with_slope_correction_dict
    {[ "model" := VStr "direct"; "dem" := VStr "USGS/SRTMGL1_003";
       "buffer" := VInt 12 ]}
    (with_radiometric_correction "TERRAIN" (defaults some_region)).

(** [create(region, radiometric_correction='TERRAIN',
    slope_correction_dict={'model': 'surface'})]: the caller names the
    model and nothing else. *)
Definition model_only_request : config :=
  with_slope_correction_dict {[ "model" := VStr "surface" ]}
    (with_radiometric_correction "TERRAIN" (defaults some_region)).

(** [create(region, radiometric_correction='TERRAIN',
    slope_correction_dict={'model': 'volume', 'dem': 'USGS/SRTMGL1_003',
    'buffer': '12'})]: the buffer is a string. *)
Definition string_buffer_request : config :=
  with_slope_correction_dict
    {[ "model" := VStr "volume"; "dem" := VStr "USGS/SRTMGL1_003";
       "buffer" := VStr "12" ]}
    (with_radiometric_correction "TERRAIN" (defaults some_region)).

(** [create(region, target_date='2020-06-15')]. *)
Definition target_request : config :=
  with_dates VNone VNone (VStr "2020-06-15") (defaults some_region).

(** The functions of [misc/dates.py] and [misc/_refined_lee.py] as calls
    that are not looked into: what the examples put for the parameters. *)
Definition traced_subtract_days (date days : val) : val :=
  VCall "dates.subtract_days" [date; days].
Definition traced_add_days (date days : val) : val :=
  VCall "dates.add_days" [date; days].
Definition traced_refined_lee (image : val) : result val :=
  Ok (VCall "_refined_lee.apply" [image]).

(** ** What is valid locally *)

Definition is_number (v : val) : bool :=
  match v with
  | VBool _ | VInt _ | VFloat _ => true
  | _ => false
  end.

Definition has_key (d : gmap string val) (key : string) : bool :=
  bool_decide (is_Some (d !! key)).

Definition key_is (d : gmap string val) (key : string) (p : val -> bool)
    : bool :=
  match d !! key with
  | Some v => p v
  | None => false
  end.

(** The dictionary that [quegan] reads has its three keys and a
    [time_window] that can be negated. *)
Definition quegan_dict_ok (d : gmap string val) : bool :=
  has_key d "radius" && has_key d "units" && key_is d "time_window" is_number.

(** The dictionary that [terrain_flattening] reads has its three keys, one
    of the two models and a [buffer] that can be compared with 0. *)
Definition slope_dict_ok (d : gmap string val) : bool :=
  key_is d "model"
    (fun m => py_eq_str m "volume" || py_eq_str m "surface")
  && has_key d "dem" && key_is d "buffer" is_number.

Definition dicts_ok (cfg : config) : bool :=
  (if String.eqb (speckle_filter cfg) "QUEGAN"
   then quegan_dict_ok (speckle_filter_dict cfg) else true)
  && (if String.eqb (radiometric_correction cfg) "TERRAIN"
      then slope_dict_ok (slope_correction_dict cfg) else true).

(** ** The reference collection of the Quegan filter *)

Definition window_start (image before : val) : val :=
  image .: "date" [] .: "advance" [ee "Number" [before]; VStr "month"].

Definition window_end (image time_window : val) : val :=
  image .: "date" [] .: "advance" [ee "Number" [time_window]; VStr "month"].

(** ** What the platform keeps when it filters by metadata

    The catalogue lives on the platform.  To say which scenes a filtered
    collection holds, the metadata filters that [_quegan.apply] uses are
    read as the platform documents them: [filterMetadata(p, 'equals', v)]
    and [Filter.eq(p, v)] keep the scenes whose property [p] is [v],
    [Filter.listContains(p, v)] those whose property [p] is a list that
    holds [v], [Filter.And] those that pass both filters, and
    [filterDate(start, end)] those acquired at or after [start] and before
    [end]. *)

Record scene := Scene {
  acquired : Z;                       (* system:time_start, in milliseconds *)
  properties : gmap string val
}.

Definition scalar_eqb (a b : val) : bool :=
  match a, b with
  | VInt x, VInt y => Z.eqb x y
  | VStr x, VStr y => String.eqb x y
  | VBool x, VBool y => Bool.eqb x y
  | _, _ => false
  end.

Definition property_is (s : scene) (name : string) (v : val) : bool :=
  match properties s !! name with
  | Some x => scalar_eqb x v
  | None => false
  end.

Definition property_holds (s : scene) (name : string) (v : val) : bool :=
  match properties s !! name with
  | Some (VList l) => existsb (fun x => scalar_eqb x v) l
  | _ => false
  end.

Section Platform.

(** The scenes of a collection id, the calendar arithmetic of
    [Date.advance], and the scene that an image handle stands for. *)
Variable catalogue : string -> list scene.
Variable advance : Z -> val -> string -> Z.
Variable scene_of : val -> option scene.

(** The value that a filter compares with: a literal, or a property of
    an image. *)
Definition value_of (e : val) : option val :=
  match e with
  | VInt _ | VStr _ | VBool _ => Some e
  | VCall f [image; VStr name] =>
      if String.eqb f "get"
      then s ← scene_of image; properties s !! name
      else None
  | _ => None
  end.

Fixpoint date_of (e : val) : option Z :=
  match e with
  | VCall f args =>
      match args with
      | [image] =>
          if String.eqb f "date" then acquired <$> scene_of image else None
      | [d; VCall g [delta]; VStr unit] =>
          if String.eqb f "advance" && String.eqb g "ee.Number"
          then (fun t => advance t delta unit) <$> date_of d
          else None
      | _ => None
      end
  | _ => None
  end.

Fixpoint passes (f : val) (s : scene) : option bool :=
  match f with
  | VCall name args =>
      match args with
      | [VStr prop; v] =>
          if String.eqb name "ee.Filter.eq"
          then property_is s prop <$> value_of v
          else if String.eqb name "ee.Filter.listContains"
          then property_holds s prop <$> value_of v
          else None
      | [f1; f2] =>
          if String.eqb name "ee.Filter.And"
          then b1 ← passes f1 s; b2 ← passes f2 s; Some (b1 && b2)
          else None
      | _ => None
      end
  | _ => None
  end.

(** [filter] over the option of a filter that is not understood. *)
Fixpoint keep (p : scene -> option bool) (l : list scene)
    : option (list scene) :=
  match l with
  | [] => Some []
  | s :: l =>
      b ← p s; l' ← keep p l; Some (if b : bool then s :: l' else l')
  end.

Fixpoint members (c : val) : option (list scene) :=
  match c with
  | VCall name args =>
      match args with
      | [VStr id] =>
          if String.eqb name "ee.ImageCollection"
          then Some (catalogue id) else None
      | [c'; f] =>
          if String.eqb name "filter"
          then l ← members c'; keep (passes f) l
          else None
      | [c'; start; end_] =>
          if String.eqb name "filterDate"
          then l ← members c'; t0 ← date_of start; t1 ← date_of end_;
               Some (List.filter
                       (fun s => (t0 <=? acquired s) && (acquired s <? t1))
                       l)
          else None
      | [c'; VStr prop; VStr op; v] =>
          if String.eqb name "filterMetadata" && String.eqb op "equals"
          then l ← members c'; v' ← value_of v;
               Some (List.filter (fun s => property_is s prop v') l)
          else None
      | _ => None
      end
  | _ => None
  end.

End Platform.

(** The scenes of the reference collection, as the filters of [s1] select
    them. *)
Definition in_reference (t0 t1 : Z) (orbit : val) (s : scene) : bool :=
  property_is s "resolution_meters" (VInt 10)
  && property_is s "instrumentMode" (VStr "IW")
  && property_holds s "transmitterReceiverPolarisation" (VStr "VV")
  && property_holds s "transmitterReceiverPolarisation" (VStr "VH")
  && (t0 <=? acquired s) && (acquired s <? t1)
  && property_is s "relativeOrbitNumber_start" orbit.

(** The scenes acquired in the window, on the orbit of the image, and
    nothing else asked of them. *)
Definition in_window_on_orbit (t0 t1 : Z) (orbit : val) (s : scene) : bool :=
  (t0 <=? acquired s) && (acquired s <? t1)
  && property_is s "relativeOrbitNumber_start" orbit.

(** A small catalogue for the examples: two scenes of one orbit, acquired
    at the same time, one in the IW mode at 10 m and one in the EW mode at
    40 m; months of 30 days stand for the calendar. *)
Definition iw_scene : scene :=
  Scene 1592179200000
    {[ "resolution_meters" := VInt 10; "instrumentMode" := VStr "IW";
       "transmitterReceiverPolarisation" := VList [VStr "VV"; VStr "VH"];
       "relativeOrbitNumber_start" := VInt 15 ]}.

Definition ew_scene : scene :=
  Scene 1592179200000
    {[ "resolution_meters" := VInt 40; "instrumentMode" := VStr "EW";
       "transmitterReceiverPolarisation" := VList [VStr "VV"; VStr "VH"];
       "relativeOrbitNumber_start" := VInt 15 ]}.

Definition two_scenes (id : string) : list scene :=
  if String.eqb id "COPERNICUS/S1_GRD_FLOAT" then [iw_scene; ew_scene] else [].

Definition months_of_30_days (t : Z) (delta : val) (unit : string) : Z :=
  match delta with
  | VInt n => t + n * 2592000000
  | _ => t
  end.

(** ** More configurations *)

Definition with_speckle_filter_dict (d : gmap string val) (c : config)
    : config :=
  Config (region c) (orbits c) (start_date c) (end_date c) (target_date c)
    (add_ratio c) (add_ND_ratio c) (speckle_filter c) d
    (radiometric_correction c) (slope_correction_dict c)
    (outlier_removal c) (db c).

(** [raises r]: [r] is an exception. *)
Definition raises {A} (r : result A) : Prop := exists e, r = Raise e.

(** The first of [keys] that the dictionary [d] does not hold. *)
Fixpoint first_missing (d : gmap string val) (keys : list string)
    : option string :=
  match keys with
  | [] => None
  | key :: keys =>
      match d !! key with
      | Some _ => first_missing d keys
      | None => Some key
      end
  end.

(** The steps that calibrate: gamma0 and terrain flattening. *)
Definition is_calibration (s : step) : bool :=
  match s with
  | ToGamma0 | TerrainFlattening => true
  | _ => false
  end.

(** ** Requirement files *)

(** The code points of a literal. *)
Definition str (s : string) : list N :=
  Ascii.N_of_ascii <$> String.list_ascii_of_string s.

(** [a < b] on str. *)
Definition str_lt (a b : list N) : Prop := setup.str_le a b /\ a <> b.

(** What [parse_requirements] keeps of a line. *)
Definition requirement_of (line : list N) : list N :=
  setup.strip (setup.partition setup.hash line).1.1.

(** A str without '#' that neither starts nor ends with white space. *)
Definition clean (x : list N) : Prop :=
  (setup.hash ∉ x)
  /\ (forall c, head x = Some c -> setup.isspace c = false)
  /\ (forall c, last x = Some c -> setup.isspace c = false).

(** A requirements file of four lines: a comment, a blank line and two
    requirements, one of them with a comment behind it. *)
Definition four_lines : list (list N) :=
  [str "numpy" ++ [10%N];
   str "# the platform" ++ [10%N];
   [10%N];
   str "  earthengine-api   # ee" ++ [10%N]].

Definition one_file (file : string) : option (list (list N)) :=
  if String.eqb file "requirements.txt" then Some four_lines else None.

(** * Properties *)

(** ** The error monad and [reduce] *)

Lemma rbind_ok {A B} (a : A) (k : A -> result B) : (x <- Ok a ;; k x) = k a.
Proof. reflexivity. Qed.

Lemma rbind_raise {A B} (e : pyerr) (k : A -> result B) :
  (x <- Raise e ;; k x) = Raise e.
Proof. reflexivity. Qed.

Lemma rbind_returns {A B} (r : result A) (k : A -> result B) :
  returns r -> (forall a, returns (k a)) -> returns (x <- r ;; k x).
Proof. intros [a ->] Hk. apply Hk. Qed.

Section Reduce.

Variable refined_lee_apply : val -> result val.
Variable cfg : config.

Lemma fold_steps_raise (l : list step) (e : pyerr) :
  fold_left (fun acc process => a <- acc ;; run refined_lee_apply cfg process a)
    l (Raise e)
  = Raise e.
Proof. induction l as [|s l IH]; simpl; auto. Qed.

(** A step receives what the steps before it have built, and the steps
    after it receive what it returns. *)
Lemma reduce_split (l1 l2 : list step) (s : step) (image : val) :
  reduce refined_lee_apply cfg (l1 ++ s :: l2) image
  = (a <- reduce refined_lee_apply cfg l1 image ;;
     b <- run refined_lee_apply cfg s a ;;
     reduce refined_lee_apply cfg l2 b).
Proof.
  unfold reduce.
  rewrite fold_left_app. simpl.
  destruct (fold_left _ l1 (Ok image)) as [a|e]; simpl.
  - destruct (run _ _ s a) as [b|e]; simpl; [reflexivity|].
    apply fold_steps_raise.
  - apply fold_steps_raise.
Qed.

Lemma reduce_snoc (l : list step) (s : step) (image : val) :
  reduce refined_lee_apply cfg (l ++ [s]) image
  = (a <- reduce refined_lee_apply cfg l image ;;
     run refined_lee_apply cfg s a).
Proof.
  rewrite reduce_split.
  destruct (reduce _ _ l image) as [a|e]; simpl; [|reflexivity].
  destruct (run _ _ s a); reflexivity.
Qed.

Lemma reduce_returns (l : list step) :
  (forall s a, In s l -> returns (run refined_lee_apply cfg s a)) ->
  forall image, returns (reduce refined_lee_apply cfg l image).
Proof.
  induction l as [|s l IH] using rev_ind; intros Hrun image.
  - exists image. reflexivity.
  - rewrite reduce_snoc. apply rbind_returns.
    + apply IH. intros s' a Hin. apply Hrun, in_or_app. now left.
    + intros a. apply Hrun, in_or_app. right. now left.
Qed.

End Reduce.

(** ** Which steps [pre_process] selects, and in which order *)


Ltac case_string s lit :=
  destruct (String.eqb_spec s lit) as [->|?]; simpl.

(** [steps] is the fixed order, restricted to the steps whose condition
    holds. *)
Lemma steps_filter (cfg : config) :
  steps cfg = List.filter (selected cfg) pipeline_order.
Proof.
  destruct cfg as [rg ob sd ed td ar an sf sfd rc scd orm d].
  unfold steps, selected, pipeline_order; simpl.
  case_string sf "BOXCAR"; [|case_string sf "REFINED_LEE";
                             [|case_string sf "QUEGAN"]];
    (case_string rc "ELLIPSOID"; [|case_string rc "TERRAIN"]);
    destruct (truthy td), ar, an, d; simpl;
    try reflexivity;
    case_string sf "SNC"; reflexivity.
Qed.

Lemma selected_steps (cfg : config) (s : step) :
  In s (steps cfg) <-> selected cfg s = true.
Proof.
  rewrite steps_filter, filter_In. split; [tauto|].
  intros H; split; [|exact H].
  destruct s; simpl; tauto.
Qed.




(** ** The speckle filter choice *)

Lemma none_selects_no_speckle_filter (cfg : config) (s : step) :
  speckle_filter cfg = "NONE" -> In s (steps cfg) -> is_speckle_filter s = false.
Proof.
  intros Hnone Hin. apply selected_steps in Hin.
  destruct s; simpl in *; try reflexivity; rewrite Hnone in Hin;
    discriminate.
Qed.

Lemma snic_never_selected_by_its_name (cfg : config) :
  speckle_filter cfg = "SNIC" -> ~ In SnicFilter (steps cfg).
Proof.
  intros Hsnic Hin. apply selected_steps in Hin. simpl in Hin.
  rewrite Hsnic in Hin. discriminate.
Qed.

Lemma snic_selected_by_SNC (cfg : config) :
  In SnicFilter (steps cfg) <-> speckle_filter cfg = "SNC".
Proof.
  rewrite selected_steps. simpl. apply String.eqb_eq.
Qed.

Lemma snic_request_steps (region : val) :
  steps (snic_request region)
  = [ToGamma0; AddRatioBand; AddNDRatioBand; ToDb; MaskBorders].
Proof. reflexivity. Qed.

(** C1: with [speckle_filter='SNIC'] no step of [pre_process] is a speckle
    filter, and [snic_filter] in particular is not applied: [pre_process]
    compares the choice with 'SNC', and only that value selects
    [snic_filter]. *)
Theorem snic_choice_selects_no_snic_filter (cfg : config) :
  speckle_filter cfg = "SNIC" ->
  ~ In SnicFilter (steps cfg)
  /\ (forall s, In s (steps cfg) -> is_speckle_filter s = false)
  /\ (forall cfg', In SnicFilter (steps cfg') <-> speckle_filter cfg' = "SNC").
Proof.
  intros Hsnic. split; [|split].
  - now apply snic_never_selected_by_its_name.
  - intros s Hin. apply selected_steps in Hin.
    destruct s; simpl in *; try reflexivity; rewrite Hsnic in Hin;
      discriminate.
  - apply snic_selected_by_SNC.
Qed.

Lemma snic_choice_selects_no_snic_filter_witness :
  ~ In SnicFilter (steps (snic_request some_region)).
Proof.
  apply (proj1 (snic_choice_selects_no_snic_filter (snic_request some_region)
                  eq_refl)).
Defined.

(** ** The radiometric correction choice *)

Lemma steps_three_parts (cfg : config) :
  steps cfg
  = List.filter (selected cfg) [BoxcarFilter; RefinedLee; Quegan]
    ++ List.filter (selected cfg) [ToGamma0; TerrainFlattening; MaskOverlay]
    ++ List.filter (selected cfg)
         [AddDateBands; AddRatioBand; AddNDRatioBand; SnicFilter; ToDb;
          MaskBorders].
Proof.
  rewrite steps_filter, <- !List.filter_app. reflexivity.
Qed.

Lemma radiometric_steps_part (cfg : config) :
  radiometric_steps cfg
  = List.filter (selected cfg) [ToGamma0; TerrainFlattening; MaskOverlay].
Proof.
  unfold radiometric_steps. rewrite steps_three_parts, !List.filter_app.
  simpl.
  repeat match goal with |- context [if ?b then _ else _] => destruct b end;
    reflexivity.
Qed.

(** C6: with 'ELLIPSOID' the only radiometric step is [to_gamma0]; with
    'TERRAIN' the radiometric steps are [terrain_flattening] and then, next
    to it, [mask_overlay]; with 'NONE' there is none. *)
Theorem radiometric_correction_steps (cfg : config) :
  (radiometric_correction cfg = "ELLIPSOID" ->
   radiometric_steps cfg = [ToGamma0])
  /\ (radiometric_correction cfg = "TERRAIN" ->
      radiometric_steps cfg = [TerrainFlattening; MaskOverlay]
      /\ exists l1 l2,
           steps cfg = l1 ++ TerrainFlattening :: MaskOverlay :: l2)
  /\ (radiometric_correction cfg = "NONE" -> radiometric_steps cfg = []).
Proof.
  rewrite radiometric_steps_part.
  split; [|split]; intros Hrc.
  - simpl. rewrite Hrc. reflexivity.
  - split.
    + simpl. rewrite Hrc. reflexivity.
    + eexists _, _. rewrite steps_three_parts.
      f_equal. simpl. rewrite Hrc. simpl. reflexivity.
  - simpl. rewrite Hrc. reflexivity.
Qed.

Lemma radiometric_correction_steps_witness :
  radiometric_steps (defaults some_region) = [ToGamma0]
  /\ radiometric_steps
       (with_radiometric_correction "TERRAIN" (defaults some_region))
     = [TerrainFlattening; MaskOverlay]
  /\ radiometric_steps
       (with_radiometric_correction "NONE" (defaults some_region))
     = [].
Proof.
  split; [|split].
  - apply (proj1 (radiometric_correction_steps (defaults some_region))).
    reflexivity.
  - apply (proj1 (proj2 (radiometric_correction_steps
             (with_radiometric_correction "TERRAIN" (defaults some_region))))).
    reflexivity.
  - apply (proj2 (proj2 (radiometric_correction_steps
             (with_radiometric_correction "NONE" (defaults some_region))))).
    reflexivity.
Defined.

(** ** The border mask *)

Lemma mask_borders_border_masked (image : val) :
  mask_borders image = Ok (border_masked image).
Proof. reflexivity. Qed.

Lemma steps_front (cfg : config) :
  steps cfg
  = List.filter (selected cfg) (removelast pipeline_order) ++ [MaskBorders].
Proof.
  rewrite steps_filter.
  change pipeline_order with (removelast pipeline_order ++ [MaskBorders]) at 1.
  rewrite List.filter_app. reflexivity.
Qed.

Lemma collection_maps_pre_process
    (subtract_days add_days : val -> val -> val)
    (refined_lee_apply : val -> result val) (cfg : config) :
  collection subtract_days add_days refined_lee_apply cfg
  = (body <- pre_process refined_lee_apply cfg (VVar "image") ;;
     Ok (VCall "map"
           [source_collection cfg (effective_start_date subtract_days cfg)
              (effective_end_date add_days cfg);
            VFun "image" body])).
Proof. reflexivity. Qed.

(** C9: whatever the configuration, [mask_borders] is the last of the
    steps and occurs once; [pre_process] returns what the steps before it
    built, masked to the pixels with angle > 31, angle < 45 and the
    slice/border condition; the collection maps this over the images, and
    what [create] returns is that collection or its outlier masking. *)
Theorem mask_borders_last_and_always
    (subtract_days add_days : val -> val -> val)
    (refined_lee_apply : val -> result val) (cfg : config) :
  (exists front,
     steps cfg = front ++ [MaskBorders]
     /\ ~ In MaskBorders front
     /\ forall image,
          pre_process refined_lee_apply cfg image
          = (acc <- reduce refined_lee_apply cfg front image ;;
             Ok (border_masked acc)))
  /\ (forall c,
        collection subtract_days add_days refined_lee_apply cfg = Ok c ->
        exists acc,
          c = VCall "map"
                [source_collection cfg
                   (effective_start_date subtract_days cfg)
                   (effective_end_date add_days cfg);
                 VFun "image" (border_masked acc)])
  /\ (forall r,
        create subtract_days add_days refined_lee_apply cfg = Ok r ->
        exists c,
          collection subtract_days add_days refined_lee_apply cfg = Ok c
          /\ (r = c \/ exists std_devs, mask_outliers c std_devs = Ok r)).
Proof.
  assert (Hpre : forall image,
             pre_process refined_lee_apply cfg image
             = (acc <- reduce refined_lee_apply cfg
                         (List.filter (selected cfg)
                            (removelast pipeline_order)) image ;;
                Ok (border_masked acc))).
  { intros image. unfold pre_process. rewrite steps_front.
    apply reduce_snoc. }
  split; [|split].
  - exists (List.filter (selected cfg) (removelast pipeline_order)).
    split; [apply steps_front|]. split; [|exact Hpre].
    rewrite filter_In. simpl. intuition discriminate.
  - intros c Hc.
    rewrite collection_maps_pre_process, Hpre in Hc.
    destruct (reduce _ _ _ _) as [acc|e]; simpl in Hc; [|discriminate].
    exists acc. symmetry. injection Hc as Hc. exact Hc.
  - intros r Hr. unfold create in Hr.
    destruct (collection _ _ _ cfg) as [c|e]; simpl in Hr; [|discriminate].
    exists c. split; [reflexivity|].
    destruct (String.eqb _ "MODERATE"); [right; eauto|].
    destruct (String.eqb _ "AGGRESSIVE"); [right; eauto|].
    left. congruence.
Qed.

Lemma mask_borders_last_and_always_witness :
  exists c acc,
    collection traced_subtract_days traced_add_days traced_refined_lee
      (defaults some_region) = Ok c
    /\ c = VCall "map"
             [source_collection (defaults some_region) VNone VNone;
              VFun "image" (border_masked acc)].
Proof.
  eexists.
  destruct (proj1 (proj2 (mask_borders_last_and_always
              traced_subtract_days traced_add_days traced_refined_lee
              (defaults some_region))) _ eq_refl) as (acc & H).
  exists acc. split; [reflexivity | exact H].
Defined.

(** ** The target date *)

Lemma add_date_bands_bands (cfg : config) (image : val) :
  add_date_bands cfg image
  = Ok (date_bands image
          (VCall "abs"
             [VCall "difference"
                [VCall "date" [image]; ee "Date" [target_date cfg];
                 VStr "day"]])).
Proof. reflexivity. Qed.

(** C8: with [target_date=0], a target date that is specified (the
    millisecond timestamp of 1970-01-01), [pre_process] does not select the
    date bands step: line 215 tests the truth value of [target_date], where
    the docstring promises the bands whenever a target date is specified. *)
Lemma epoch_target_has_no_date_bands :
  target_date epoch_target_request = VInt 0
  /\ target_date epoch_target_request <> VNone
  /\ ~ In AddDateBands (steps epoch_target_request).
Proof.
  split; [reflexivity|]. split; [discriminate|].
  vm_compute. intuition discriminate.
Qed.

(** What the code does: the date bands step is selected if and only if
    [target_date] is true in Python's sense (not None, not 0, not the empty
    string); the step adds the bands dayOfYear, daysFromTarget, quality and
    unixTimeDays, where daysFromTarget is the distance [d] in days to the
    target and quality is [d] times -1. *)
Lemma date_bands_iff_target_truthy
    (refined_lee_apply : val -> result val) (cfg : config) :
  (In AddDateBands (steps cfg) <-> truthy (target_date cfg) = true)
  /\ forall image,
       run refined_lee_apply cfg AddDateBands image
       = Ok (date_bands image
               (VCall "abs"
                  [VCall "difference"
                     [VCall "date" [image]; ee "Date" [target_date cfg];
                      VStr "day"]])).
Proof.
  split.
  - apply selected_steps.
  - intros image. simpl. apply add_date_bands_bands.
Qed.

Lemma date_bands_iff_target_truthy_witness :
  In AddDateBands (steps target_request)
  /\ ~ In AddDateBands (steps (defaults some_region)).
Proof.
  split.
  - apply (proj1 (date_bands_iff_target_truthy traced_refined_lee
                    target_request)).
    reflexivity.
  - intros Hin.
    apply (proj1 (date_bands_iff_target_truthy traced_refined_lee
                    (defaults some_region))) in Hin.
    discriminate Hin.
Defined.

(** ** The date range *)

Lemma days_is_183 : days = VFloat (PyFloat 183 0).
Proof. reflexivity. Qed.

(** C2: a [start_date] and an [end_date] that are supplied as the
    millisecond timestamp 0, a form that the docstring allows, are not left
    as they are: lines 89 and 92 test their truth value, and [create]
    replaces them by the target date minus and plus 183 days. *)
Lemma epoch_range_is_replaced :
  start_date epoch_range_request = VInt 0
  /\ end_date epoch_range_request = VInt 0
  /\ effective_start_date traced_subtract_days epoch_range_request
     = traced_subtract_days (VStr "2020-06-15") (VFloat (PyFloat 183 0))
  /\ effective_end_date traced_add_days epoch_range_request
     = traced_add_days (VStr "2020-06-15") (VFloat (PyFloat 183 0))
  /\ effective_start_date traced_subtract_days epoch_range_request
     <> start_date epoch_range_request
  /\ effective_end_date traced_add_days epoch_range_request
     <> end_date epoch_range_request.
Proof.
  repeat split; try reflexivity; vm_compute; discriminate.
Qed.

(** What the code does: [create] filters the catalogue by the range
    [filterDate(start, end)] where, when [target_date] is true in Python's
    sense and [start_date] is not (it is None, 0 or empty), [start] is
    [dates.subtract_days(target_date, 183)]; likewise [end] is
    [dates.add_days(target_date, 183)] when [end_date] is not true; a
    [start_date] or [end_date] that is true is left as it is, and so are
    both when [target_date] is not true. *)
Lemma date_range_defaults
    (subtract_days add_days : val -> val -> val)
    (refined_lee_apply : val -> result val) (cfg : config) :
  let start_ := effective_start_date subtract_days cfg in
  let end_ := effective_end_date add_days cfg in
  collection subtract_days add_days refined_lee_apply cfg
  = (body <- pre_process refined_lee_apply cfg (VVar "image") ;;
     Ok (VCall "map" [source_collection cfg start_ end_; VFun "image" body]))
  /\ (truthy (target_date cfg) = true -> truthy (start_date cfg) = false ->
      start_ = subtract_days (target_date cfg) (VFloat (PyFloat 183 0)))
  /\ (truthy (target_date cfg) = true -> truthy (end_date cfg) = false ->
      end_ = add_days (target_date cfg) (VFloat (PyFloat 183 0)))
  /\ (truthy (start_date cfg) = true -> start_ = start_date cfg)
  /\ (truthy (end_date cfg) = true -> end_ = end_date cfg)
  /\ (truthy (target_date cfg) = false ->
      start_ = start_date cfg /\ end_ = end_date cfg).
Proof.
  cbv zeta. split; [reflexivity|].
  unfold effective_start_date, effective_end_date.
  repeat split; intros; repeat match goal with H : _ = _ |- _ => rewrite H end;
    simpl; rewrite ?andb_false_r; reflexivity.
Qed.

Lemma date_range_defaults_witness :
  effective_start_date traced_subtract_days target_request
  = traced_subtract_days (VStr "2020-06-15") (VFloat (PyFloat 183 0))
  /\ effective_end_date traced_add_days target_request
     = traced_add_days (VStr "2020-06-15") (VFloat (PyFloat 183 0))
  /\ effective_start_date traced_subtract_days
       (with_dates (VStr "2020-01-01") (VStr "2020-12-31") (VStr "2020-06-15")
          (defaults some_region))
     = VStr "2020-01-01"
  /\ effective_end_date traced_add_days
       (with_dates (VStr "2020-01-01") (VStr "2020-12-31") (VStr "2020-06-15")
          (defaults some_region))
     = VStr "2020-12-31".
Proof.
  pose proof (date_range_defaults traced_subtract_days traced_add_days
                traced_refined_lee target_request) as (_ & Hs & He & _).
  pose proof (date_range_defaults traced_subtract_days traced_add_days
                traced_refined_lee
                (with_dates (VStr "2020-01-01") (VStr "2020-12-31")
                   (VStr "2020-06-15") (defaults some_region)))
    as (_ & _ & _ & Hs' & He' & _).
  split; [apply Hs; reflexivity|].
  split; [apply He; reflexivity|].
  split; [apply Hs'; reflexivity|apply He'; reflexivity].
Defined.

(** ** Outlier removal *)

Lemma mask_outliers_shape (c std_devs : val) :
  mask_outliers c std_devs
  = Ok (VCall "map"
          [c; VFun "image"
                (outlier_masked
                   (VCall "select" [collection_stats c; VStr ".*_median"])
                   (VCall "select" [collection_stats c; VStr ".*_stdDev"])
                   std_devs (VVar "image"))]).
Proof. reflexivity. Qed.

Lemma two_point_six : fdec 2.6 = PyFloat (13 # 5) 0.
Proof. reflexivity. Qed.

(** C5: with 'MODERATE' [create] returns the collection with every image
    masked to the pixels whose VV and VH lie within 3 standard deviations of
    the median of the collection; with 'AGGRESSIVE' the factor is 2.6; with
    any other value [create] returns the collection itself. *)
Theorem outlier_removal_choice
    (subtract_days add_days : val -> val -> val)
    (refined_lee_apply : val -> result val) (cfg : config) :
  let collection := collection subtract_days add_days refined_lee_apply cfg in
  let create := create subtract_days add_days refined_lee_apply cfg in
  let masked c std_devs :=
    VCall "map"
      [c; VFun "image"
            (outlier_masked
               (VCall "select" [collection_stats c; VStr ".*_median"])
               (VCall "select" [collection_stats c; VStr ".*_stdDev"])
               std_devs (VVar "image"))] in
  (outlier_removal cfg = "MODERATE" ->
   create = (c <- collection ;; Ok (masked c (VInt 3))))
  /\ (outlier_removal cfg = "AGGRESSIVE" ->
      create = (c <- collection ;; Ok (masked c (VFloat (PyFloat (13 # 5) 0)))))
  /\ (outlier_removal cfg <> "MODERATE" ->
      outlier_removal cfg <> "AGGRESSIVE" ->
      create = collection).
Proof.
  cbv zeta. unfold create.
  split; [|split].
  - intros ->. simpl. reflexivity.
  - intros ->. simpl. reflexivity.
  - intros Hm Ha.
    apply String.eqb_neq in Hm, Ha. rewrite Hm, Ha.
    destruct (collection _ _ _ _); reflexivity.
Qed.

Lemma outlier_removal_choice_witness :
  let sub := traced_subtract_days in
  let add := traced_add_days in
  let lee := traced_refined_lee in
  let moderate := with_outlier_removal "MODERATE" (defaults some_region) in
  let aggressive := with_outlier_removal "AGGRESSIVE" (defaults some_region) in
  let masked c std_devs :=
    VCall "map"
      [c; VFun "image"
            (outlier_masked
               (VCall "select" [collection_stats c; VStr ".*_median"])
               (VCall "select" [collection_stats c; VStr ".*_stdDev"])
               std_devs (VVar "image"))] in
  create sub add lee moderate
  = (c <- collection sub add lee moderate ;; Ok (masked c (VInt 3)))
  /\ create sub add lee aggressive
     = (c <- collection sub add lee aggressive ;;
        Ok (masked c (VFloat (PyFloat (13 # 5) 0))))
  /\ create sub add lee (defaults some_region)
     = collection sub add lee (defaults some_region).
Proof.
  cbv zeta.
  split; [|split].
  - apply (proj1 (outlier_removal_choice traced_subtract_days traced_add_days
             traced_refined_lee
             (with_outlier_removal "MODERATE" (defaults some_region)))).
    reflexivity.
  - apply (proj1 (proj2 (outlier_removal_choice traced_subtract_days
             traced_add_days traced_refined_lee
             (with_outlier_removal "AGGRESSIVE" (defaults some_region))))).
    reflexivity.
  - apply (proj2 (proj2 (outlier_removal_choice traced_subtract_days
             traced_add_days traced_refined_lee (defaults some_region))));
      discriminate.
Defined.

(** ** What the two helpers return *)

Lemma quegan_apply_carries (image radius units time_window : val) :
  is_number time_window = true ->
  exists x,
    _quegan.apply image radius units time_window = Ok (carried_over image x).
Proof.
  intros Hnum.
  destruct time_window; try discriminate Hnum;
    unfold _quegan.apply, getitem; simpl;
    simplify_map_eq; simpl; eexists; reflexivity.
Qed.

Lemma masking_buffered (alpha_rRad theta_iRad buffer : val) :
  py_gt0 buffer = Ok true ->
  _slope_correction._masking alpha_rRad theta_iRad buffer
  = Ok (mask_bands
          (_slope_correction._erode (layover alpha_rRad theta_iRad) buffer)
          (_slope_correction._erode (shadow alpha_rRad theta_iRad) buffer)).
Proof.
  intros Hgt. unfold _slope_correction._masking. rewrite Hgt. reflexivity.
Qed.

Lemma masking_unbuffered (alpha_rRad theta_iRad buffer : val) :
  py_gt0 buffer = Ok false ->
  _slope_correction._masking alpha_rRad theta_iRad buffer
  = Ok (mask_bands (layover alpha_rRad theta_iRad)
          (shadow alpha_rRad theta_iRad)).
Proof.
  intros Hgt. unfold _slope_correction._masking. rewrite Hgt. reflexivity.
Qed.

Lemma py_gt0_number (v : val) :
  is_number v = true -> exists b, py_gt0 v = Ok b.
Proof. destruct v; try discriminate; simpl; eauto. Qed.

Lemma masking_returns (alpha_rRad theta_iRad buffer : val) :
  is_number buffer = true ->
  returns (_slope_correction._masking alpha_rRad theta_iRad buffer).
Proof.
  intros Hnum. destruct (py_gt0_number _ Hnum) as [[|] Hb].
  - rewrite (masking_buffered _ _ _ Hb). eexists; reflexivity.
  - rewrite (masking_unbuffered _ _ _ Hb). eexists; reflexivity.
Qed.

Lemma correct_carries (image model elevation buffer : val) :
  model = VStr "volume" \/ model = VStr "surface" ->
  is_number buffer = true ->
  exists x,
    _slope_correction.correct image model elevation buffer
    = Ok (carried_over image x).
Proof.
  intros Hmodel Hnum.
  unfold _slope_correction.correct.
  destruct Hmodel as [-> | ->]; simpl;
    match goal with
    | |- context [_slope_correction._masking ?a ?t buffer] =>
        destruct (masking_returns a t buffer Hnum) as [masks ->]
    end; simpl; eexists; reflexivity.
Qed.

(** Any other model leaves [scf] unbound. *)
Lemma correct_unbound (image model elevation buffer : val) :
  py_eq_str model "volume" = false ->
  py_eq_str model "surface" = false ->
  _slope_correction.correct image model elevation buffer
  = Raise (UnboundLocalError "scf").
Proof.
  intros Hv Hs. unfold _slope_correction.correct. rewrite Hv, Hs.
  reflexivity.
Qed.

(** C10: the Quegan filter and the slope correction both return an image
    onto which the properties of the source image are copied and whose
    system:time_start is then set to that of the source image; and
    [_masking] erodes the layover and shadow masks by [buffer] when
    [buffer > 0] and returns them as they are otherwise. *)
Theorem helpers_carry_properties (image : val) :
  (forall radius units time_window,
     is_number time_window = true ->
     exists x,
       _quegan.apply image radius units time_window
       = Ok (carried_over image x))
  /\ (forall model elevation buffer,
        model = VStr "volume" \/ model = VStr "surface" ->
        is_number buffer = true ->
        exists x,
          _slope_correction.correct image model elevation buffer
          = Ok (carried_over image x))
  /\ (forall alpha_rRad theta_iRad buffer,
        (py_gt0 buffer = Ok true ->
         _slope_correction._masking alpha_rRad theta_iRad buffer
         = Ok (mask_bands
                 (_slope_correction._erode (layover alpha_rRad theta_iRad)
                    buffer)
                 (_slope_correction._erode (shadow alpha_rRad theta_iRad)
                    buffer)))
        /\ (py_gt0 buffer = Ok false ->
            _slope_correction._masking alpha_rRad theta_iRad buffer
            = Ok (mask_bands (layover alpha_rRad theta_iRad)
                    (shadow alpha_rRad theta_iRad)))).
Proof.
  split; [|split].
  - intros. now apply quegan_apply_carries.
  - intros. now apply correct_carries.
  - intros. split; [apply masking_buffered | apply masking_unbuffered].
Qed.

Lemma helpers_carry_properties_witness :
  (exists x,
     _quegan.apply (VVar "image") (VInt 30) (VStr "meters") (VInt 12)
     = Ok (carried_over (VVar "image") x))
  /\ (exists x,
        _slope_correction.correct (VVar "image") (VStr "volume")
          (VStr "USGS/SRTMGL1_003") (VInt 12)
        = Ok (carried_over (VVar "image") x))
  /\ _slope_correction._masking (VVar "a") (VVar "t") (VInt 12)
     = Ok (mask_bands
             (_slope_correction._erode (layover (VVar "a") (VVar "t"))
                (VInt 12))
             (_slope_correction._erode (shadow (VVar "a") (VVar "t"))
                (VInt 12)))
  /\ _slope_correction._masking (VVar "a") (VVar "t") (VInt 0)
     = Ok (mask_bands (layover (VVar "a") (VVar "t"))
             (shadow (VVar "a") (VVar "t"))).
Proof.
  pose proof (helpers_carry_properties (VVar "image")) as (Hq & Hc & Hm).
  split; [apply Hq; reflexivity|].
  split; [apply Hc; [left|]; reflexivity|].
  split.
  - apply (proj1 (Hm (VVar "a") (VVar "t") (VInt 12))). reflexivity.
  - apply (proj2 (Hm (VVar "a") (VVar "t") (VInt 0))). reflexivity.
Defined.

(** ** Local errors *)

Lemma has_key_getitem (d : gmap string val) (key : string) :
  has_key d key = true -> exists v, getitem d key = Ok v.
Proof.
  unfold has_key, getitem. intros H. apply bool_decide_eq_true in H.
  destruct H as [v ->]. eauto.
Qed.

Lemma key_is_getitem (d : gmap string val) (key : string) (p : val -> bool) :
  key_is d key p = true -> exists v, getitem d key = Ok v /\ p v = true.
Proof.
  unfold key_is, getitem. destruct (d !! key) as [v|]; [eauto|discriminate].
Qed.

Lemma quegan_returns (cfg : config) (image : val) :
  quegan_dict_ok (speckle_filter_dict cfg) = true ->
  returns (quegan cfg image).
Proof.
  unfold quegan_dict_ok. rewrite !andb_true_iff. intros [[Hr Hu] Ht].
  destruct (has_key_getitem _ _ Hr) as [radius Hradius].
  destruct (has_key_getitem _ _ Hu) as [units Hunits].
  destruct (key_is_getitem _ _ _ Ht) as (tw & Htw & Hnum).
  unfold quegan. rewrite Hradius, Hunits, Htw. simpl.
  destruct (quegan_apply_carries image radius units tw Hnum) as [x ->].
  eexists; reflexivity.
Qed.

Lemma terrain_flattening_returns (cfg : config) (image : val) :
  slope_dict_ok (slope_correction_dict cfg) = true ->
  returns (terrain_flattening cfg image).
Proof.
  unfold slope_dict_ok. rewrite !andb_true_iff. intros [[Hm Hd] Hb].
  destruct (key_is_getitem _ _ _ Hm) as (model & Hmodel & Hok).
  destruct (has_key_getitem _ _ Hd) as [dem Hdem].
  destruct (key_is_getitem _ _ _ Hb) as (buffer & Hbuffer & Hnum).
  unfold terrain_flattening. rewrite Hmodel, Hdem, Hbuffer. simpl.
  assert (Hcase : model = VStr "volume" \/ model = VStr "surface").
  { apply orb_true_iff in Hok.
    destruct model; simpl in Hok; try (destruct Hok; discriminate).
    destruct Hok as [H|H]; apply String.eqb_eq in H; subst; auto. }
  destruct (correct_carries image model dem buffer Hcase Hnum) as [x ->].
  eexists; reflexivity.
Qed.

Lemma run_returns (refined_lee_apply : val -> result val) (cfg : config) :
  dicts_ok cfg = true ->
  (speckle_filter cfg = "REFINED_LEE" ->
   forall image, returns (refined_lee_apply image)) ->
  forall s a, In s (steps cfg) -> returns (run refined_lee_apply cfg s a).
Proof.
  intros Hdicts Hlee s a Hin.
  apply selected_steps in Hin.
  unfold dicts_ok in Hdicts. apply andb_true_iff in Hdicts as [Hq Ht].
  destruct s; simpl in *; try (eexists; reflexivity).
  - apply Hlee. now apply String.eqb_eq.
  - rewrite Hin in Hq. now apply quegan_returns.
  - rewrite Hin in Ht. now apply terrain_flattening_returns.
Qed.

(** C4, as stated, fails: with the terrain correction, [create] raises a
    local error for a dictionary that lacks a key that [terrain_flattening]
    reads, for a buffer that is not a number, and for a model that is
    neither 'volume' nor 'surface'. *)
Lemma terrain_requests_raise_locally :
  create traced_subtract_days traced_add_days traced_refined_lee
    model_only_request
  = Raise (KeyError "dem")
  /\ create traced_subtract_days traced_add_days traced_refined_lee
       string_buffer_request
     = Raise (TypeError "'>' not supported")
  /\ slope_correction_dict direct_model_request !! "model"
     = Some (VStr "direct")
  /\ create traced_subtract_days traced_add_days traced_refined_lee
       direct_model_request
     = Raise (UnboundLocalError "scf").
Proof. repeat split; vm_compute; reflexivity. Qed.

(** In the embedding, where the calls into [ee] return, [create] runs
    through when the dictionaries of the selected steps are well formed. *)
Lemma create_runs_through
    (subtract_days add_days : val -> val -> val)
    (refined_lee_apply : val -> result val) (cfg : config) :
  dicts_ok cfg = true ->
  (speckle_filter cfg = "REFINED_LEE" ->
   forall image, returns (refined_lee_apply image)) ->
  returns (create subtract_days add_days refined_lee_apply cfg).
Proof.
  intros Hdicts Hlee.
  assert (Hpre : returns (pre_process refined_lee_apply cfg (VVar "image"))).
  { apply reduce_returns. now apply run_returns. }
  unfold create. rewrite collection_maps_pre_process.
  destruct Hpre as [body ->]. simpl.
  destruct (String.eqb _ "MODERATE"); [eexists; reflexivity|].
  destruct (String.eqb _ "AGGRESSIVE"); eexists; reflexivity.
Qed.

(** C4, amended: whatever the configuration strings, none of the
    repository's own statements raises while [create] builds the collection
    (no KeyError, no TypeError of [-time_window] or of [buffer > 0], no
    UnboundLocalError), when the dictionary that a selected step reads
    holds the keys of that step, with a number for [time_window] (Quegan)
    or for [buffer] and 'volume' or 'surface' for [model] (terrain
    correction).  What the [ee] client library raises when it checks the
    arguments of a call, and what the modules [dates] and [_refined_lee]
    raise, is outside this statement: the embedding follows the run in
    which these calls return, and in a run in which one of them raises the
    statements of the repository that come after it are not reached. *)
Theorem create_own_statements_raise_nothing
    (subtract_days add_days : val -> val -> val)
    (refined_lee_apply : val -> result val) (cfg : config) :
  dicts_ok cfg = true ->
  (speckle_filter cfg = "REFINED_LEE" ->
   forall image, returns (refined_lee_apply image)) ->
  forall e : pyerr,
    create subtract_days add_days refined_lee_apply cfg <> Raise e.
Proof.
  intros Hdicts Hlee e He.
  destruct (create_runs_through subtract_days add_days refined_lee_apply cfg
              Hdicts Hlee) as [c Hc].
  congruence.
Qed.

Lemma create_own_statements_raise_nothing_witness :
  (forall e : pyerr,
     create traced_subtract_days traced_add_days traced_refined_lee
       (with_radiometric_correction "TERRAIN"
          (with_speckle_filter "QUEGAN" (defaults some_region)))
     <> Raise e)
  /\ (forall e : pyerr,
        create traced_subtract_days traced_add_days traced_refined_lee
          (with_speckle_filter "REFINED_LEE" (defaults some_region))
        <> Raise e).
Proof.
  split.
  - apply create_own_statements_raise_nothing.
    + vm_compute. reflexivity.
    + intros H. discriminate H.
  - apply create_own_statements_raise_nothing.
    + vm_compute. reflexivity.
    + intros _ image. exists (VCall "_refined_lee.apply" [image]).
      reflexivity.
Defined.

(** ** The reference collection of the Quegan filter *)

Lemma keep_filter (p : scene -> option bool) (q : scene -> bool)
    (l : list scene) :
  (forall s, p s = Some (q s)) -> keep p l = Some (List.filter q l).
Proof.
  intros H. induction l as [|s l IH]; simpl; [reflexivity|].
  rewrite H, IH. simpl. destruct (q s); reflexivity.
Qed.

Lemma filter_filter_andb {A} (p q : A -> bool) (l : list A) :
  List.filter q (List.filter p l) = List.filter (fun x => p x && q x) l.
Proof.
  induction l as [|x l IH]; simpl; [reflexivity|].
  destruct (p x); simpl; [destruct (q x)|]; now rewrite IH.
Qed.

(** [apply] filters over the collection [s1] of the window that
    [time_window] opens around the date of the image. *)
Lemma apply_reference (image radius units time_window before : val) :
  py_neg time_window = Ok before ->
  _quegan.apply image radius units time_window
  = _quegan.filtering image radius units
      (_quegan.s1 image (window_start image before)
         (window_end image time_window)).
Proof.
  intros Hneg. unfold _quegan.apply. rewrite Hneg. simpl.
  unfold getitem. simplify_map_eq. reflexivity.
Qed.

Lemma s1_members (catalogue : string -> list scene)
    (advance : Z -> val -> string -> Z) (scene_of : val -> option scene)
    (image before time_window : val) (img : scene) (orbit : val) :
  scene_of image = Some img ->
  properties img !! "relativeOrbitNumber_start" = Some orbit ->
  members catalogue advance scene_of
    (_quegan.s1 image (window_start image before)
       (window_end image time_window))
  = Some (List.filter
            (in_reference (advance (acquired img) before "month")
               (advance (acquired img) time_window "month") orbit)
            (catalogue "COPERNICUS/S1_GRD_FLOAT")).
Proof.
  intros Himg Horbit.
  unfold _quegan.s1, window_start, window_end. simpl.
  rewrite Himg. simpl. rewrite Horbit.
  rewrite (keep_filter _
             (fun s =>
                property_holds s "transmitterReceiverPolarisation" (VStr "VV")
                && property_holds s "transmitterReceiverPolarisation"
                     (VStr "VH"))) by reflexivity.
  simpl.
  rewrite (keep_filter _
             (fun s => property_is s "relativeOrbitNumber_start" orbit))
    by reflexivity.
  rewrite !filter_filter_andb. f_equal.
  apply List.filter_ext. intros s. unfold in_reference.
  rewrite !andb_assoc. reflexivity.
Qed.

(** C7, as stated, fails: a scene of the window and of the orbit of the
    image that was acquired in the EW mode at 40 m is not in the reference
    collection. *)
Lemma ew_scene_not_in_reference :
  let image := VVar "image" in
  let scene_of := fun _ : val => Some iw_scene in
  let t0 := months_of_30_days (acquired iw_scene) (VInt (-12)) "month" in
  let t1 := months_of_30_days (acquired iw_scene) (VInt 12) "month" in
  List.filter (in_window_on_orbit t0 t1 (VInt 15))
    (two_scenes "COPERNICUS/S1_GRD_FLOAT")
  = [iw_scene; ew_scene]
  /\ members two_scenes months_of_30_days scene_of
       (_quegan.s1 image (window_start image (VInt (-12)))
          (window_end image (VInt 12)))
     = Some [iw_scene]
  /\ _quegan.apply image (VInt 30) (VStr "meters") (VInt 12)
     = _quegan.filtering image (VInt 30) (VStr "meters")
         (_quegan.s1 image (window_start image (VInt (-12)))
            (window_end image (VInt 12))).
Proof.
  cbv zeta. split; [|split].
  - vm_compute. reflexivity.
  - vm_compute. reflexivity.
  - vm_compute. reflexivity.
Qed.

(** C7, amended: for every image and every numeric [time_window], the
    Quegan filter works over the reference collection that holds exactly
    the scenes of COPERNICUS/S1_GRD_FLOAT with a resolution of 10 m, the IW
    mode and both VV and VH, acquired at or after [time_window] months
    before the date of the image and before [time_window] months after it,
    on the relative orbit of the image. *)
Theorem quegan_reference_collection
    (catalogue : string -> list scene)
    (advance : Z -> val -> string -> Z) (scene_of : val -> option scene)
    (image radius units time_window before : val)
    (img : scene) (orbit : val) :
  py_neg time_window = Ok before ->
  scene_of image = Some img ->
  properties img !! "relativeOrbitNumber_start" = Some orbit ->
  exists s1,
    _quegan.apply image radius units time_window
    = _quegan.filtering image radius units s1
    /\ members catalogue advance scene_of s1
       = Some (List.filter
                 (in_reference (advance (acquired img) before "month")
                    (advance (acquired img) time_window "month") orbit)
                 (catalogue "COPERNICUS/S1_GRD_FLOAT")).
Proof.
  intros Hneg Himg Horbit.
  exists (_quegan.s1 image (window_start image before)
            (window_end image time_window)).
  split.
  - now apply apply_reference.
  - now apply s1_members.
Qed.

Lemma quegan_reference_collection_witness :
  exists s1,
    _quegan.apply (VVar "image") (VInt 30) (VStr "meters") (VInt 12)
    = _quegan.filtering (VVar "image") (VInt 30) (VStr "meters") s1
    /\ members two_scenes months_of_30_days (fun _ => Some iw_scene) s1
       = Some (List.filter
                 (in_reference
                    (months_of_30_days (acquired iw_scene) (VInt (-12)) "month")
                    (months_of_30_days (acquired iw_scene) (VInt 12) "month")
                    (VInt 15))
                 (two_scenes "COPERNICUS/S1_GRD_FLOAT")).
Proof.
  apply (quegan_reference_collection two_scenes months_of_30_days
           (fun _ => Some iw_scene) (VVar "image") (VInt 30) (VStr "meters")
           (VInt 12) (VInt (-12)) iw_scene (VInt 15)); reflexivity.
Defined.

(** * Further properties of the collection builder *)

(** ** Outcomes of the two helpers *)

Lemma returns_not_raises {A} (r : result A) : returns r -> ~ raises r.
Proof. intros [a ->] [e H]. discriminate H. Qed.

Lemma returns_or_raises {A} (r : result A) : returns r \/ raises r.
Proof. destruct r as [a|e]; [left|right]; eexists; reflexivity. Qed.

Lemma apply_not_number (image radius units time_window : val) :
  is_number time_window = false ->
  _quegan.apply image radius units time_window
  = Raise (TypeError "bad operand type for unary -").
Proof. destruct time_window; try discriminate; reflexivity. Qed.

(** X1: [_quegan.apply] negates [time_window] before anything else: for
    a [time_window] that is not a number (an int, a float or a bool) it
    raises the TypeError of the unary minus, whatever the image, the
    radius and the units; so that it returns only for a number. *)
Theorem quegan_apply_needs_number (image radius units time_window : val) :
  (is_number time_window = false ->
   _quegan.apply image radius units time_window
   = Raise (TypeError "bad operand type for unary -"))
  /\ (returns (_quegan.apply image radius units time_window) ->
      is_number time_window = true).
Proof.
  split.
  - apply apply_not_number.
  - intros Hret. destruct (is_number time_window) eqn:Hnum; [reflexivity|].
    destruct Hret as [r Hr].
    rewrite (apply_not_number _ _ _ _ Hnum) in Hr. discriminate Hr.
Qed.

Lemma quegan_apply_needs_number_witness :
  _quegan.apply (VVar "image") (VInt 30) (VStr "meters") (VStr "12")
  = Raise (TypeError "bad operand type for unary -")
  /\ is_number (VInt 12) = true.
Proof.
  pose proof (quegan_apply_needs_number (VVar "image") (VInt 30)
                (VStr "meters") (VStr "12")) as [Hraise _].
  pose proof (quegan_apply_needs_number (VVar "image") (VInt 30)
                (VStr "meters") (VInt 12)) as [_ Hnum].
  split.
  - apply Hraise. reflexivity.
  - apply Hnum. eexists. vm_compute. reflexivity.
Defined.

Lemma py_eq_str_false (v : val) (s : string) :
  v <> VStr s -> py_eq_str v s = false.
Proof.
  intros Hne. destruct v; try reflexivity. simpl.
  apply String.eqb_neq. congruence.
Qed.

Lemma py_eq_str_true (v : val) (s : string) :
  py_eq_str v s = true -> v = VStr s.
Proof.
  destruct v; try discriminate. simpl. intros H.
  apply String.eqb_eq in H. now subst.
Qed.

Lemma py_gt0_not_number (v : val) :
  is_number v = false -> py_gt0 v = Raise (TypeError "'>' not supported").
Proof. destruct v; try discriminate; reflexivity. Qed.

Lemma correct_buffer_not_number (image model elevation buffer : val) :
  model = VStr "volume" \/ model = VStr "surface" ->
  is_number buffer = false ->
  _slope_correction.correct image model elevation buffer
  = Raise (TypeError "'>' not supported").
Proof.
  intros Hmodel Hnum. unfold _slope_correction.correct.
  destruct Hmodel as [-> | ->]; simpl;
    unfold _slope_correction._masking;
    rewrite (py_gt0_not_number _ Hnum); reflexivity.
Qed.

(** X2: [_slope_correction.correct] returns only if [model] is 'volume'
    or 'surface' and [buffer] is a number: with any other model it reads
    [scf] unbound, and a buffer that is not a number cannot be compared
    with 0. *)
Theorem correct_returns_only_if (image model elevation buffer : val) :
  returns (_slope_correction.correct image model elevation buffer) ->
  (model = VStr "volume" \/ model = VStr "surface")
  /\ is_number buffer = true.
Proof.
  intros [r Hr].
  destruct (py_eq_str model "volume") eqn:Hv;
    [|destruct (py_eq_str model "surface") eqn:Hs].
  - apply py_eq_str_true in Hv. split; [now left|].
    destruct (is_number buffer) eqn:Hnum; [reflexivity|].
    rewrite correct_buffer_not_number in Hr by auto. discriminate Hr.
  - apply py_eq_str_true in Hs. split; [now right|].
    destruct (is_number buffer) eqn:Hnum; [reflexivity|].
    rewrite correct_buffer_not_number in Hr by auto. discriminate Hr.
  - rewrite correct_unbound in Hr by assumption. discriminate Hr.
Qed.

Lemma correct_returns_only_if_witness :
  (VStr "surface" = VStr "volume" \/ VStr "surface" = VStr "surface")
  /\ is_number (VInt 12) = true.
Proof.
  apply (correct_returns_only_if (VVar "image") (VStr "surface")
           (VStr "USGS/SRTMGL1_003") (VInt 12)).
  eexists. vm_compute. reflexivity.
Defined.

(** ** Missing keys *)

(** X3: the two steps that read a dictionary read their three keys, in
    the order of the source, before they call the helper: when a key is
    missing, the step raises KeyError for the first missing key, whatever
    the image and the other values (also with a model that the helper
    would not know). *)
Theorem wrappers_first_missing_key (cfg : config) (image : val) (key : string) :
  (first_missing (speckle_filter_dict cfg) ["radius"; "units"; "time_window"]
   = Some key ->
   quegan cfg image = Raise (KeyError key))
  /\ (first_missing (slope_correction_dict cfg) ["model"; "dem"; "buffer"]
      = Some key ->
      terrain_flattening cfg image = Raise (KeyError key)).
Proof.
  split; intros Hmiss; simpl in Hmiss.
  - unfold quegan, getitem.
    repeat (match goal with
            | H : context [?d !! ?k] |- _ =>
                destruct (d !! k); simpl;
                [|injection H as <-; reflexivity]
            end).
    discriminate Hmiss.
  - unfold terrain_flattening, getitem.
    repeat (match goal with
            | H : context [?d !! ?k] |- _ =>
                destruct (d !! k); simpl;
                [|injection H as <-; reflexivity]
            end).
    discriminate Hmiss.
Qed.

Lemma wrappers_first_missing_key_witness :
  quegan
    (with_speckle_filter_dict {[ "radius" := VInt 30 ]} (defaults some_region))
    (VVar "image")
  = Raise (KeyError "units")
  /\ terrain_flattening
       (with_slope_correction_dict
          {[ "model" := VStr "direct"; "buffer" := VInt 12 ]}
          (defaults some_region))
       (VVar "image")
     = Raise (KeyError "dem").
Proof.
  split.
  - apply (proj1 (wrappers_first_missing_key
             (with_speckle_filter_dict {[ "radius" := VInt 30 ]}
                (defaults some_region)) (VVar "image") "units")).
    vm_compute. reflexivity.
  - apply (proj2 (wrappers_first_missing_key
             (with_slope_correction_dict
                {[ "model" := VStr "direct"; "buffer" := VInt 12 ]}
                (defaults some_region)) (VVar "image") "dem")).
    vm_compute. reflexivity.
Defined.

(** ** When [create] raises, and what *)

Lemma quegan_raises (cfg : config) (image : val) :
  quegan_dict_ok (speckle_filter_dict cfg) = false ->
  raises (quegan cfg image).
Proof.
  unfold quegan_dict_ok, has_key, key_is, quegan, getitem.
  destruct (_ !! "radius") as [radius|]; [|eexists; reflexivity].
  destruct (_ !! "units") as [units|]; [|eexists; reflexivity].
  destruct (_ !! "time_window") as [tw|]; [|eexists; reflexivity].
  rewrite !bool_decide_eq_true_2 by eauto. simpl. intros Hnum.
  rewrite (apply_not_number _ _ _ _ Hnum). eexists; reflexivity.
Qed.

Lemma terrain_flattening_raises (cfg : config) (image : val) :
  slope_dict_ok (slope_correction_dict cfg) = false ->
  raises (terrain_flattening cfg image).
Proof.
  unfold slope_dict_ok, has_key, key_is, terrain_flattening, getitem.
  destruct (_ !! "model") as [model|]; [|eexists; reflexivity].
  destruct (_ !! "dem") as [dem|]; [|eexists; reflexivity].
  destruct (_ !! "buffer") as [buffer|]; [|eexists; reflexivity].
  rewrite !bool_decide_eq_true_2 by eauto. simpl.
  rewrite andb_true_r. intros Hbad.
  destruct (py_eq_str model "volume") eqn:Hv;
    [|destruct (py_eq_str model "surface") eqn:Hs]; simpl in Hbad.
  - apply py_eq_str_true in Hv.
    rewrite correct_buffer_not_number by auto. eexists; reflexivity.
  - apply py_eq_str_true in Hs.
    rewrite correct_buffer_not_number by auto. eexists; reflexivity.
  - rewrite correct_unbound by assumption. eexists; reflexivity.
Qed.

Lemma reduce_raises_in (refined_lee_apply : val -> result val) (cfg : config)
    (l : list step) (s : step) :
  In s l ->
  (forall a, raises (run refined_lee_apply cfg s a)) ->
  forall image, raises (reduce refined_lee_apply cfg l image).
Proof.
  intros Hin Hs image.
  apply in_split in Hin as (l1 & l2 & ->).
  rewrite reduce_split.
  destruct (reduce _ _ l1 image) as [a|e]; simpl; [|eexists; reflexivity].
  destruct (Hs a) as [e ->]. eexists; reflexivity.
Qed.

Lemma create_raises_with_pre_process
    (subtract_days add_days : val -> val -> val)
    (refined_lee_apply : val -> result val) (cfg : config) (e : pyerr) :
  pre_process refined_lee_apply cfg (VVar "image") = Raise e ->
  create subtract_days add_days refined_lee_apply cfg = Raise e.
Proof.
  intros Hpre. unfold create.
  rewrite collection_maps_pre_process, Hpre. reflexivity.
Qed.

(** X4: [create] returns only if the dictionaries that the selected steps
    read are well formed: the three keys of the Quegan step with a numeric
    [time_window], the three keys of the terrain correction with a model
    'volume' or 'surface' and a numeric [buffer].  With a dictionary that
    is not, the selected step raises on every image, so that [create] does
    not return, whatever the other arguments. *)
Theorem create_returns_only_if_dicts_ok
    (subtract_days add_days : val -> val -> val)
    (refined_lee_apply : val -> result val) (cfg : config) :
  returns (create subtract_days add_days refined_lee_apply cfg) ->
  dicts_ok cfg = true.
Proof.
  intros Hret. destruct (dicts_ok cfg) eqn:Hno; [reflexivity|].
  exfalso. apply (returns_not_raises _ Hret).
  assert (Hpre : raises (pre_process refined_lee_apply cfg (VVar "image"))).
  { unfold dicts_ok in Hno. apply andb_false_iff in Hno as [Hq|Ht].
    - destruct (String.eqb (speckle_filter cfg) "QUEGAN") eqn:Hsel;
        [|discriminate].
      apply (reduce_raises_in _ _ _ Quegan).
      + now apply selected_steps.
      + intros a. now apply quegan_raises.
    - destruct (String.eqb (radiometric_correction cfg) "TERRAIN") eqn:Hsel;
        [|discriminate].
      apply (reduce_raises_in _ _ _ TerrainFlattening).
      + now apply selected_steps.
      + intros a. now apply terrain_flattening_raises. }
  destruct Hpre as [e He]. exists e.
  now apply create_raises_with_pre_process.
Qed.

Lemma create_returns_only_if_dicts_ok_witness :
  dicts_ok (with_radiometric_correction "TERRAIN" (defaults some_region))
  = true.
Proof.
  apply (create_returns_only_if_dicts_ok traced_subtract_days traced_add_days
           traced_refined_lee
           (with_radiometric_correction "TERRAIN" (defaults some_region))).
  eexists. vm_compute. reflexivity.
Defined.

(** X5: [create] raises the exception of the first step that fails: when
    the steps before a step return on the placeholder image and that step
    raises on what they built, [create] raises that exception, whatever
    the steps after it and whatever [outlier_removal]. *)
Theorem create_raises_first_failure
    (subtract_days add_days : val -> val -> val)
    (refined_lee_apply : val -> result val) (cfg : config)
    (l1 l2 : list step) (s : step) (a : val) (e : pyerr) :
  steps cfg = l1 ++ s :: l2 ->
  reduce refined_lee_apply cfg l1 (VVar "image") = Ok a ->
  run refined_lee_apply cfg s a = Raise e ->
  create subtract_days add_days refined_lee_apply cfg = Raise e.
Proof.
  intros Hsplit Hbefore Hstep.
  apply create_raises_with_pre_process.
  unfold pre_process. rewrite Hsplit, reduce_split, Hbefore. simpl.
  rewrite Hstep. reflexivity.
Qed.

Lemma create_raises_first_failure_witness :
  create traced_subtract_days traced_add_days traced_refined_lee
    (with_speckle_filter "BOXCAR" direct_model_request)
  = Raise (UnboundLocalError "scf").
Proof.
  eapply (create_raises_first_failure traced_subtract_days traced_add_days
            traced_refined_lee
            (with_speckle_filter "BOXCAR" direct_model_request)
            [BoxcarFilter]
            [MaskOverlay; AddRatioBand; AddNDRatioBand; ToDb; MaskBorders]
            TerrainFlattening).
  - reflexivity.
  - reflexivity.
  - vm_compute. reflexivity.
Defined.

(** ** What [create] does not read *)

Lemma reduce_ext (refined_lee_apply : val -> result val) (cfg cfg' : config)
    (l : list step) :
  (forall s a, In s l ->
     run refined_lee_apply cfg s a = run refined_lee_apply cfg' s a) ->
  forall image,
    reduce refined_lee_apply cfg l image
    = reduce refined_lee_apply cfg' l image.
Proof.
  induction l as [|s l IH] using rev_ind; intros Hrun image.
  - reflexivity.
  - rewrite !reduce_snoc, IH.
    + destruct (reduce _ cfg' l image) as [a|e]; simpl; [|reflexivity].
      apply Hrun, in_or_app. right. now left.
    + intros s' a Hin. apply Hrun, in_or_app. now left.
Qed.

Lemma create_without_quegan
    (subtract_days add_days : val -> val -> val)
    (refined_lee_apply : val -> result val) (cfg : config)
    (d : gmap string val) :
  speckle_filter cfg <> "QUEGAN" ->
  create subtract_days add_days refined_lee_apply
    (with_speckle_filter_dict d cfg)
  = create subtract_days add_days refined_lee_apply cfg.
Proof.
  intros Hno. unfold create.
  rewrite !collection_maps_pre_process. unfold pre_process.
  change (steps (with_speckle_filter_dict d cfg)) with (steps cfg).
  rewrite (reduce_ext _ (with_speckle_filter_dict d cfg) cfg).
  - reflexivity.
  - intros s a Hin. destruct s; try reflexivity.
    apply selected_steps in Hin. simpl in Hin.
    apply String.eqb_eq in Hin. contradiction.
Qed.

Lemma create_without_terrain
    (subtract_days add_days : val -> val -> val)
    (refined_lee_apply : val -> result val) (cfg : config)
    (d : gmap string val) :
  radiometric_correction cfg <> "TERRAIN" ->
  create subtract_days add_days refined_lee_apply
    (with_slope_correction_dict d cfg)
  = create subtract_days add_days refined_lee_apply cfg.
Proof.
  intros Hno. unfold create.
  rewrite !collection_maps_pre_process. unfold pre_process.
  change (steps (with_slope_correction_dict d cfg)) with (steps cfg).
  rewrite (reduce_ext _ (with_slope_correction_dict d cfg) cfg).
  - reflexivity.
  - intros s a Hin. destruct s; try reflexivity.
    apply selected_steps in Hin. simpl in Hin.
    apply String.eqb_eq in Hin. contradiction.
Qed.

(** X6: [create] reads [speckle_filter_dict] only for the Quegan filter
    and [slope_correction_dict] only for the terrain correction: with any
    other choice, two calls that differ in that dictionary alone give the
    same result, be it a collection or an exception. *)
Theorem unselected_dicts_are_not_read
    (subtract_days add_days : val -> val -> val)
    (refined_lee_apply : val -> result val) (cfg : config)
    (d1 d2 : gmap string val) :
  (speckle_filter cfg <> "QUEGAN" ->
   create subtract_days add_days refined_lee_apply
     (with_speckle_filter_dict d1 cfg)
   = create subtract_days add_days refined_lee_apply
       (with_speckle_filter_dict d2 cfg))
  /\ (radiometric_correction cfg <> "TERRAIN" ->
      create subtract_days add_days refined_lee_apply
        (with_slope_correction_dict d1 cfg)
      = create subtract_days add_days refined_lee_apply
          (with_slope_correction_dict d2 cfg)).
Proof.
  split; intros Hno.
  - now rewrite !create_without_quegan.
  - now rewrite !create_without_terrain.
Qed.

Lemma unselected_dicts_are_not_read_witness :
  create traced_subtract_days traced_add_days traced_refined_lee
    (with_speckle_filter_dict ∅ (defaults some_region))
  = create traced_subtract_days traced_add_days traced_refined_lee
      (with_speckle_filter_dict {[ "radius" := VStr "wide" ]}
         (defaults some_region))
  /\ create traced_subtract_days traced_add_days traced_refined_lee
       (with_slope_correction_dict ∅ (defaults some_region))
     = create traced_subtract_days traced_add_days traced_refined_lee
         (with_slope_correction_dict {[ "model" := VStr "direct" ]}
            (defaults some_region)).
Proof.
  split.
  - apply (proj1 (unselected_dicts_are_not_read traced_subtract_days
                    traced_add_days traced_refined_lee (defaults some_region)
                    ∅ {[ "radius" := VStr "wide" ]})).
    discriminate.
  - apply (proj2 (unselected_dicts_are_not_read traced_subtract_days
                    traced_add_days traced_refined_lee (defaults some_region)
                    ∅ {[ "model" := VStr "direct" ]})).
    discriminate.
Defined.

(** ** How many steps *)

(** X7: whatever the configuration, [pre_process] applies at most one
    speckle filter (boxcar, refined Lee, Quegan or SNIC) and at most one
    calibration (gamma0 or terrain flattening); the layover/shadow mask is
    applied exactly when the terrain flattening is; and there are between
    one and eight steps. *)
Theorem steps_exclusive (cfg : config) :
  (length (List.filter is_speckle_filter (steps cfg)) <= 1)%nat
  /\ (length (List.filter is_calibration (steps cfg)) <= 1)%nat
  /\ (In MaskOverlay (steps cfg) <-> In TerrainFlattening (steps cfg))
  /\ (1 <= length (steps cfg) <= 8)%nat.
Proof.
  split; [|split; [|split]].
  - destruct cfg as [rg ob sd ed td ar an sf sfd rc scd orm d].
    rewrite steps_filter. unfold selected, pipeline_order; simpl.
    case_string sf "BOXCAR";
      [|case_string sf "REFINED_LEE";
        [|case_string sf "QUEGAN"; [|case_string sf "SNC"]]];
      destruct (String.eqb rc "ELLIPSOID"), (String.eqb rc "TERRAIN"),
        (truthy td), ar, an, d; simpl; lia.
  - destruct cfg as [rg ob sd ed td ar an sf sfd rc scd orm d].
    rewrite steps_filter. unfold selected, pipeline_order; simpl.
    (case_string rc "ELLIPSOID"; [|case_string rc "TERRAIN"]);
      destruct (String.eqb sf "BOXCAR"), (String.eqb sf "REFINED_LEE"),
        (String.eqb sf "QUEGAN"), (String.eqb sf "SNC"),
        (truthy td), ar, an, d; simpl; lia.
  - rewrite !selected_steps. reflexivity.
  - destruct cfg as [rg ob sd ed td ar an sf sfd rc scd orm d].
    rewrite steps_filter. unfold selected, pipeline_order; simpl.
    (case_string sf "BOXCAR";
      [|case_string sf "REFINED_LEE";
        [|case_string sf "QUEGAN"; [|case_string sf "SNC"]]]);
      (case_string rc "ELLIPSOID"; [|case_string rc "TERRAIN"]);
      destruct (truthy td), ar, an, d; simpl; lia.
Qed.

(** X8: the steps depend on the speckle filter choice, the radiometric
    correction choice, the truth value of [target_date], [add_ratio],
    [add_ND_ratio] and [db], and on nothing else: two configurations that
    agree on these select the same steps, whatever their region, orbits,
    date range, dictionaries and outlier removal. *)
Theorem steps_depend_on_six_choices (cfg cfg' : config) :
  speckle_filter cfg = speckle_filter cfg' ->
  radiometric_correction cfg = radiometric_correction cfg' ->
  truthy (target_date cfg) = truthy (target_date cfg') ->
  add_ratio cfg = add_ratio cfg' ->
  add_ND_ratio cfg = add_ND_ratio cfg' ->
  db cfg = db cfg' ->
  steps cfg = steps cfg'.
Proof.
  intros Hsf Hrc Htd Har Han Hdb.
  rewrite !steps_filter. apply List.filter_ext. intros s.
  destruct s; simpl; congruence.
Qed.

Lemma steps_depend_on_six_choices_witness :
  steps (with_dates (VStr "2019-01-01") VNone (VStr "2020-06-15")
           (with_outlier_removal "MODERATE" (defaults (VVar "elsewhere"))))
  = steps target_request.
Proof.
  apply steps_depend_on_six_choices; reflexivity.
Defined.

(** ** An empty window *)






(** * Properties of [parse_requirements] *)

(** ** The order on str *)

Lemma str_leb_refl (a : list N) : setup.str_leb a a = true.
Proof.
  induction a as [|x a IH]; simpl; [reflexivity|].
  now rewrite N.ltb_irrefl.
Qed.

Lemma str_leb_total (a b : list N) :
  setup.str_leb a b = true \/ setup.str_leb b a = true.
Proof.
  revert b. induction a as [|x a IH]; intros [|y b]; simpl; auto.
  destruct (N.ltb_spec x y), (N.ltb_spec y x); auto; lia.
Qed.

Lemma str_leb_trans (a b c : list N) :
  setup.str_leb a b = true -> setup.str_leb b c = true ->
  setup.str_leb a c = true.
Proof.
  revert b c. induction a as [|x a IH]; intros [|y b] [|z c]; simpl;
    try (intros; reflexivity || discriminate).
  destruct (N.ltb_spec x y), (N.ltb_spec y x), (N.ltb_spec y z),
    (N.ltb_spec z y), (N.ltb_spec x z), (N.ltb_spec z x);
    try (intros; reflexivity || discriminate || lia).
  apply IH.
Qed.

Lemma str_leb_antisym (a b : list N) :
  setup.str_leb a b = true -> setup.str_leb b a = true -> a = b.
Proof.
  revert b. induction a as [|x a IH]; intros [|y b]; simpl;
    try (intros; reflexivity || discriminate).
  destruct (N.ltb_spec x y), (N.ltb_spec y x);
    try (intros; discriminate || lia).
  intros Hab Hba. assert (x = y) as -> by lia. f_equal. now apply IH.
Qed.

#[export] Instance str_le_total : Total setup.str_le.
Proof. intros a b. apply str_leb_total. Qed.

#[export] Instance str_le_trans : Transitive setup.str_le.
Proof. intros a b c. apply str_leb_trans. Qed.

#[export] Instance str_le_antisym : AntiSymm (=) setup.str_le.
Proof. intros a b. apply str_leb_antisym. Qed.

Lemma str_le_nil (a : list N) : setup.str_le [] a.
Proof. reflexivity. Qed.

(** ** [sorted] of a set *)

Lemma elem_of_sorted (s : gset (list N)) (x : list N) :
  x ∈ setup.sorted s <-> x ∈ s.
Proof.
  unfold setup.sorted. rewrite merge_sort_Permutation.
  apply elem_of_elements.
Qed.

Lemma sorted_NoDup (s : gset (list N)) : NoDup (setup.sorted s).
Proof.
  unfold setup.sorted. rewrite merge_sort_Permutation.
  apply NoDup_elements.
Qed.

Lemma sorted_StronglySorted (s : gset (list N)) :
  StronglySorted setup.str_le (setup.sorted s).
Proof. apply StronglySorted_merge_sort; apply _. Qed.

Lemma StronglySorted_strict (l : list (list N)) :
  StronglySorted setup.str_le l -> NoDup l -> StronglySorted str_lt l.
Proof.
  induction 1 as [|x l Hsorted IH Hall]; intros Hnodup; constructor.
  - apply IH. now apply NoDup_cons_1_2 in Hnodup.
  - apply NoDup_cons_1_1 in Hnodup.
    rewrite Forall_forall in Hall |- *. intros y Hy. split.
    + apply Hall. exact Hy.
    + intros ->. apply Hnodup. now apply list_elem_of_In.
Qed.

(** Two lists in ascending order that hold the same strs, each once, are
    the same list: [sorted] is determined by the set, not by the way the
    sort proceeds. *)
Lemma ascending_unique (l1 l2 : list (list N)) :
  StronglySorted setup.str_le l1 -> StronglySorted setup.str_le l2 ->
  NoDup l1 -> NoDup l2 -> (forall x, x ∈ l1 <-> x ∈ l2) -> l1 = l2.
Proof.
  intros H1 H2 Hd1 Hd2 Hsame.
  apply (StronglySorted_unique setup.str_le); try assumption.
  now apply NoDup_Permutation.
Qed.

(** ** [partition] and [strip] *)

Lemma partition_head_free (sep : N) (s : list N) :
  sep ∉ (setup.partition sep s).1.1.
Proof.
  induction s as [|c s IH]; simpl.
  - apply not_elem_of_nil.
  - destruct (N.eqb_spec c sep) as [->|Hne]; simpl.
    + apply not_elem_of_nil.
    + destruct (setup.partition sep s) as [[head found] tail]. simpl in *.
      rewrite elem_of_cons. intros [Heq|Hin]; [congruence|contradiction].
Qed.

Lemma partition_head_sublist (sep : N) (s : list N) (c : N) :
  c ∈ (setup.partition sep s).1.1 -> c ∈ s.
Proof.
  induction s as [|x s IH]; simpl.
  - auto.
  - destruct (N.eqb_spec x sep) as [->|Hne]; simpl.
    + intros H. now apply elem_of_nil in H.
    + destruct (setup.partition sep s) as [[head found] tail]. simpl in *.
      rewrite !elem_of_cons. intros [->|Hin]; auto.
Qed.

Lemma partition_free (sep : N) (s : list N) :
  sep ∉ s -> setup.partition sep s = (s, [], []).
Proof.
  induction s as [|c s IH]; simpl; [reflexivity|].
  rewrite not_elem_of_cons. intros [Hne Hfree].
  destruct (N.eqb_spec c sep) as [->|_]; [congruence|].
  now rewrite IH.
Qed.

(** [lstrip] takes away a run of white space at the front. *)
Lemma lstrip_suffix (s : list N) :
  exists front, s = front ++ setup.lstrip s
                /\ Forall (fun c => setup.isspace c = true) front.
Proof.
  induction s as [|c s (front & Hs & Hfront)]; simpl.
  - exists []. split; [reflexivity|constructor].
  - destruct (setup.isspace c) eqn:Hc.
    + exists (c :: front). split; [simpl; congruence|now constructor].
    + exists []. split; [reflexivity|constructor].
Qed.

Lemma lstrip_head (s : list N) (c : N) :
  head (setup.lstrip s) = Some c -> setup.isspace c = false.
Proof.
  induction s as [|x s IH]; simpl; [discriminate|].
  destruct (setup.isspace x) eqn:Hx; [exact IH|].
  simpl. intros [= <-]. exact Hx.
Qed.

Lemma lstrip_fixed (s : list N) :
  (forall c, head s = Some c -> setup.isspace c = false) ->
  setup.lstrip s = s.
Proof.
  destruct s as [|x s]; simpl; [reflexivity|].
  intros H. now rewrite (H x eq_refl).
Qed.

Lemma rstrip_prefix (s : list N) :
  exists back, s = setup.rstrip s ++ back.
Proof.
  unfold setup.rstrip.
  destruct (lstrip_suffix (reverse s)) as (front & Hs & _).
  exists (reverse front).
  rewrite <- reverse_app, <- Hs. symmetry. apply reverse_involutive.
Qed.

Lemma rstrip_last (s : list N) (c : N) :
  last (setup.rstrip s) = Some c -> setup.isspace c = false.
Proof.
  unfold setup.rstrip. rewrite last_reverse. apply lstrip_head.
Qed.

Lemma rstrip_fixed (s : list N) :
  (forall c, last s = Some c -> setup.isspace c = false) ->
  setup.rstrip s = s.
Proof.
  intros H. unfold setup.rstrip. rewrite lstrip_fixed.
  - apply reverse_involutive.
  - intros c. rewrite head_reverse. apply H.
Qed.

Lemma strip_head (s : list N) (c : N) :
  head (setup.strip s) = Some c -> setup.isspace c = false.
Proof.
  unfold setup.strip. intros Hhead.
  destruct (rstrip_prefix (setup.lstrip s)) as [back Hback].
  apply (lstrip_head s). rewrite Hback.
  destruct (setup.rstrip (setup.lstrip s)); [discriminate|exact Hhead].
Qed.

Lemma strip_last (s : list N) (c : N) :
  last (setup.strip s) = Some c -> setup.isspace c = false.
Proof. apply rstrip_last. Qed.

Lemma strip_sublist (s : list N) (c : N) : c ∈ setup.strip s -> c ∈ s.
Proof.
  unfold setup.strip. intros Hin.
  destruct (rstrip_prefix (setup.lstrip s)) as [back Hback].
  destruct (lstrip_suffix s) as (front & Hs & _).
  rewrite Hs, Hback, !elem_of_app. auto.
Qed.

Lemma strip_fixed (s : list N) :
  (forall c, head s = Some c -> setup.isspace c = false) ->
  (forall c, last s = Some c -> setup.isspace c = false) ->
  setup.strip s = s.
Proof.
  intros Hhead Hlast. unfold setup.strip.
  rewrite (lstrip_fixed s Hhead). now apply rstrip_fixed.
Qed.

Lemma requirement_of_clean (line : list N) : clean (requirement_of line).
Proof.
  unfold clean, requirement_of. split; [|split].
  - intros Hin. apply strip_sublist in Hin.
    exact (partition_head_free _ _ Hin).
  - apply strip_head.
  - apply strip_last.
Qed.

Lemma requirement_of_fixed (x : list N) : clean x -> requirement_of x = x.
Proof.
  intros (Hfree & Hhead & Hlast). unfold requirement_of.
  rewrite (partition_free _ _ Hfree). simpl. now apply strip_fixed.
Qed.

(** All white space before the first '#': nothing is left of the line. *)
Lemma requirement_of_blank (line : list N) :
  requirement_of line = []
  <-> Forall (fun c => setup.isspace c = true)
        (setup.partition setup.hash line).1.1.
Proof.
  unfold requirement_of.
  generalize ((setup.partition setup.hash line).1.1). intros s. split.
  - intros Hstrip.
    destruct (lstrip_suffix s) as (front & Hs & Hfront).
    destruct (setup.lstrip s) as [|c rest] eqn:Hl.
    + rewrite app_nil_r in Hs. now subst.
    + exfalso. unfold setup.strip in Hstrip. rewrite Hl in Hstrip.
      destruct (rstrip_prefix (c :: rest)) as [back Hback].
      assert (Hc : setup.isspace c = false).
      { apply (lstrip_head s). now rewrite Hl. }
      unfold setup.rstrip in Hstrip.
      apply (f_equal reverse) in Hstrip.
      rewrite reverse_involutive, reverse_nil in Hstrip.
      destruct (lstrip_suffix (reverse (c :: rest))) as (sp & Hrev & Hsp).
      rewrite Hstrip, app_nil_r in Hrev.
      assert (Hin : c ∈ sp).
      { rewrite <- Hrev, elem_of_reverse. apply elem_of_cons. now left. }
      rewrite Forall_forall in Hsp. specialize (Hsp c Hin). congruence.
  - intros Hall. unfold setup.strip.
    assert (Hl : setup.lstrip s = []).
    { induction Hall as [|c s Hc _ IH]; simpl; [reflexivity|].
      now rewrite Hc. }
    rewrite Hl. reflexivity.
Qed.

(** ** [parse_requirements] *)

(** [set('')] is the empty set, so that taking it away changes nothing. *)
Lemma parse_requirements_lines
    (readlines : string -> option (list (list N))) (file : string)
    (lines : list (list N)) :
  readlines file = Some lines ->
  setup.parse_requirements readlines file
  = Some (setup.sorted (list_to_set (requirement_of <$> lines))).
Proof.
  intros Hread. unfold setup.parse_requirements. rewrite Hread. simpl.
  do 2 f_equal. unfold setup.set_of_str. simpl.
  apply difference_empty_L.
Qed.

Lemma elem_of_requirements (lines : list (list N)) (x : list N) :
  x ∈ setup.sorted (list_to_set (requirement_of <$> lines))
  <-> exists line, line ∈ lines /\ x = requirement_of line.
Proof.
  rewrite elem_of_sorted, elem_of_list_to_set, list_elem_of_fmap.
  split; intros (line & H1 & H2); exists line; auto.
Qed.

(** X10: the requirements come in strictly ascending order of str, so
    that none occurs twice, whatever the order and the repetitions of the
    lines of the file. *)
Theorem parse_requirements_ascending
    (readlines : string -> option (list (list N))) (file : string)
    (lines : list (list N)) :
  readlines file = Some lines ->
  exists reqs,
    setup.parse_requirements readlines file = Some reqs
    /\ StronglySorted str_lt reqs.
Proof.
  intros Hread. eexists. split; [apply (parse_requirements_lines _ _ lines Hread)|].
  apply StronglySorted_strict; [apply sorted_StronglySorted|apply sorted_NoDup].
Qed.

Lemma parse_requirements_ascending_witness :
  exists reqs,
    setup.parse_requirements one_file "requirements.txt" = Some reqs
    /\ StronglySorted str_lt reqs.
Proof.
  exact (parse_requirements_ascending one_file "requirements.txt" four_lines
           eq_refl).
Defined.

(** X11: a str is among the requirements if and only if it is what is
    left of some line of the file once the line is cut at its first '#'
    and the white space at both ends is taken away. *)
Theorem parse_requirements_members
    (readlines : string -> option (list (list N))) (file : string)
    (lines : list (list N)) :
  readlines file = Some lines ->
  exists reqs,
    setup.parse_requirements readlines file = Some reqs
    /\ forall x,
         x ∈ reqs
         <-> exists line,
               line ∈ lines
               /\ x = setup.strip (setup.partition setup.hash line).1.1.
Proof.
  intros Hread. eexists. split; [apply (parse_requirements_lines _ _ lines Hread)|].
  apply elem_of_requirements.
Qed.

Lemma parse_requirements_members_witness :
  exists reqs,
    setup.parse_requirements one_file "requirements.txt" = Some reqs
    /\ str "earthengine-api" ∈ reqs.
Proof.
  destruct (parse_requirements_members one_file "requirements.txt" four_lines
              eq_refl) as (reqs & Hparse & Hmem).
  exists reqs. split; [exact Hparse|].
  apply Hmem. exists (str "  earthengine-api   # ee" ++ [10%N]).
  split; [|vm_compute; reflexivity].
  unfold four_lines. rewrite !elem_of_cons. auto.
Defined.

(** X12: no requirement holds a '#', and none starts or ends with white
    space. *)
Theorem parse_requirements_clean
    (readlines : string -> option (list (list N))) (file : string)
    (reqs : list (list N)) :
  setup.parse_requirements readlines file = Some reqs ->
  forall x, x ∈ reqs ->
    (setup.hash ∉ x)
    /\ (forall c, head x = Some c -> setup.isspace c = false)
    /\ (forall c, last x = Some c -> setup.isspace c = false).
Proof.
  intros Hparse x Hx.
  destruct (readlines file) as [lines|] eqn:Hread.
  - rewrite (parse_requirements_lines _ _ _ Hread) in Hparse.
    injection Hparse as <-.
    apply elem_of_requirements in Hx as (line & _ & ->).
    apply requirement_of_clean.
  - unfold setup.parse_requirements in Hparse. rewrite Hread in Hparse.
    discriminate Hparse.
Qed.

Lemma parse_requirements_clean_witness :
  (setup.hash ∉ str "earthengine-api")
  /\ (forall c, head (str "earthengine-api") = Some c ->
        setup.isspace c = false)
  /\ (forall c, last (str "earthengine-api") = Some c ->
        setup.isspace c = false).
Proof.
  apply (parse_requirements_clean one_file "requirements.txt"
           [[]; str "earthengine-api"; str "numpy"]).
  - vm_compute. reflexivity.
  - rewrite !elem_of_cons. auto.
Defined.

Lemma str_le_nil_inv (a : list N) : setup.str_le a [] -> a = [].
Proof. destruct a; [reflexivity|discriminate]. Qed.

(** X13: [- set('')] takes nothing away, because [set('')] is the empty
    set and not the set of the empty str: the empty str is among the
    requirements exactly when some line of the file holds only white space
    before its first '#' (a blank line, a comment), and it is then the
    first of them. *)
Theorem parse_requirements_keeps_empty
    (readlines : string -> option (list (list N))) (file : string)
    (lines : list (list N)) :
  readlines file = Some lines ->
  exists reqs,
    setup.parse_requirements readlines file = Some reqs
    /\ ([] ∈ reqs
        <-> exists line,
              line ∈ lines
              /\ Forall (fun c => setup.isspace c = true)
                   (setup.partition setup.hash line).1.1)
    /\ ([] ∈ reqs -> head reqs = Some []).
Proof.
  intros Hread. eexists. split; [apply (parse_requirements_lines _ _ lines Hread)|]. split.
  - rewrite elem_of_requirements. split.
    + intros (line & Hin & Hempty). exists line. split; [exact Hin|].
      now apply requirement_of_blank.
    + intros (line & Hin & Hblank). exists line. split; [exact Hin|].
      symmetry. now apply requirement_of_blank.
  - intros Hin.
    pose proof (sorted_StronglySorted
                  (list_to_set (requirement_of <$> lines))) as Hsorted.
    destruct (setup.sorted _) as [|x rest]; [now apply elem_of_nil in Hin|].
    simpl. f_equal.
    apply elem_of_cons in Hin as [<-|Hin]; [reflexivity|].
    apply StronglySorted_inv in Hsorted as [_ Hall].
    rewrite Forall_forall in Hall.
    apply str_le_nil_inv, Hall, Hin.
Qed.

Lemma parse_requirements_keeps_empty_witness :
  exists reqs,
    setup.parse_requirements one_file "requirements.txt" = Some reqs
    /\ head reqs = Some [].
Proof.
  destruct (parse_requirements_keeps_empty one_file "requirements.txt"
              four_lines eq_refl) as (reqs & Hparse & Hiff & Hfirst).
  exists reqs. split; [exact Hparse|].
  apply Hfirst, Hiff. exists [10%N]. split.
  - unfold four_lines. rewrite !elem_of_cons. auto.
  - vm_compute. repeat constructor.
Defined.

Lemma list_to_set_sorted (s : gset (list N)) :
  list_to_set (setup.sorted s) = s.
Proof.
  apply set_eq. intros x.
  rewrite elem_of_list_to_set. apply elem_of_sorted.
Qed.

Lemma requirements_fixed (l : list (list N)) :
  Forall clean l -> requirement_of <$> l = l.
Proof.
  induction 1 as [|x l Hx _ IH]; [reflexivity|].
  now rewrite fmap_cons, (requirement_of_fixed x Hx), IH.
Qed.

Lemma requirement_of_line (x : list N) :
  clean x -> requirement_of (x ++ [10%N]) = x.
Proof.
  intros (Hfree & Hhead & Hlast). unfold requirement_of.
  rewrite partition_free.
  - simpl. unfold setup.strip. destruct x as [|c x].
    + reflexivity.
    + rewrite (lstrip_fixed ((c :: x) ++ [10%N])).
      * unfold setup.rstrip. rewrite reverse_snoc. simpl.
        change (reverse (setup.lstrip (reverse (c :: x))))
          with (setup.rstrip (c :: x)).
        now apply rstrip_fixed.
      * simpl. intros c' [= <-]. apply (Hhead c). reflexivity.
  - rewrite elem_of_app, list_elem_of_singleton.
    intros [Hin|Heq]; [contradiction|discriminate Heq].
Qed.

Lemma requirements_of_lines (l : list (list N)) :
  Forall clean l -> requirement_of <$> ((fun x => x ++ [10%N]) <$> l) = l.
Proof.
  induction 1 as [|x l Hx _ IH]; [reflexivity|].
  now rewrite !fmap_cons, (requirement_of_line x Hx), IH.
Qed.

(** X14: parsing is idempotent: a file that holds the requirements that
    [parse_requirements] returned, one to a line and each line ended by a
    newline, parses to the same requirements. *)
Theorem parse_requirements_idempotent
    (readlines again : string -> option (list (list N)))
    (file file' : string) (reqs : list (list N)) :
  setup.parse_requirements readlines file = Some reqs ->
  again file' = Some ((fun x => x ++ [10%N]) <$> reqs) ->
  setup.parse_requirements again file' = Some reqs.
Proof.
  intros Hparse Hagain.
  destruct (readlines file) as [lines|] eqn:Hread.
  - rewrite (parse_requirements_lines _ _ _ Hread) in Hparse.
    injection Hparse as <-.
    rewrite (parse_requirements_lines _ _ _ Hagain).
    rewrite requirements_of_lines.
    + now rewrite list_to_set_sorted.
    + rewrite Forall_forall. intros x Hx.
      apply elem_of_requirements in Hx as (line & _ & ->).
      apply requirement_of_clean.
  - unfold setup.parse_requirements in Hparse. rewrite Hread in Hparse.
    discriminate Hparse.
Qed.

Lemma parse_requirements_idempotent_witness :
  setup.parse_requirements
    (fun _ => Some [[10%N]; str "earthengine-api" ++ [10%N];
                    str "numpy" ++ [10%N]])
    "frozen.txt"
  = Some [[]; str "earthengine-api"; str "numpy"].
Proof.
  apply (parse_requirements_idempotent one_file _ "requirements.txt").
  - vm_compute. reflexivity.
  - reflexivity.
Defined.

(** X15: the requirements depend on which lines the file holds, not on
    their order nor on how often a line occurs: two files with the same
    lines, in any order and number, parse to the same list. *)
Theorem parse_requirements_same_lines
    (readlines readlines' : string -> option (list (list N)))
    (file file' : string) (lines lines' : list (list N)) :
  readlines file = Some lines ->
  readlines' file' = Some lines' ->
  (forall line, line ∈ lines <-> line ∈ lines') ->
  setup.parse_requirements readlines file
  = setup.parse_requirements readlines' file'.
Proof.
  intros Hread Hread' Hsame.
  rewrite (parse_requirements_lines _ _ _ Hread),
    (parse_requirements_lines _ _ _ Hread').
  do 2 f_equal. apply set_eq. intros x.
  rewrite !elem_of_list_to_set, !list_elem_of_fmap.
  split; intros (line & -> & Hin); exists line; split; auto;
    now apply Hsame.
Qed.

Lemma parse_requirements_same_lines_witness :
  setup.parse_requirements one_file "requirements.txt"
  = setup.parse_requirements
      (fun _ => Some (reverse four_lines ++ four_lines)) "twice.txt".
Proof.
  apply (parse_requirements_same_lines one_file _ _ _ four_lines
           (reverse four_lines ++ four_lines)); try reflexivity.
  intros line. rewrite elem_of_app, elem_of_reverse. tauto.
Defined.
